(** * uproot.models.TRef: versionless models of TRef and TRefArray

    A shallow embedding of [src/uproot/models/TRef.py]: the two decoders
    ([Model_TRef.read_members], [Model_TRefArray.read_members]), the strided
    interpretation of [TRef], and the Awkward form builders of both classes
    (native and Forth-generating).

    Python state is explicit: a method is a function from a state to an
    outcome and the state it leaves, and the state survives an exception, as
    the mutated Python objects do. *)

From Stdlib Require Import ZArith List String Ascii Bool Lia.
From Stdlib Require Import Strings.Byte.
From Stdlib Require Import DecimalString DecimalPos DecimalZ.
Import ListNotations.

Local Open Scope string_scope.
Local Open Scope list_scope.
Local Open Scope Z_scope.

(* ================================================================== *)
(** ** Exceptions and the state-and-exception monad *)

Module Py.

(** The exceptions a call of this module can end in.  The specification
    names [NotImplementedError] "UnsupportedSerializationMode"; it also
    lists "CorruptRecord", which no path of the module raises. *)
Inductive exn : Type :=
| NotImplementedError (msg : string)
| TruncatedInput
| CorruptRecord
| KeyError (key : string)
| AttributeError (name : string)
| IndexError
| ValueError.

Inductive result (A : Type) : Type :=
| Ok (a : A)
| Raise (e : exn).
Arguments Ok {A} a.
Arguments Raise {A} e.

(** A computation over a mutable state [S]. *)
Definition M (S A : Type) : Type := S -> result A * S.

Definition ret {S A} (a : A) : M S A := fun s => (Ok a, s).
Definition raise {S A} (e : exn) : M S A := fun s => (Raise e, s).
Definition bind {S A B} (m : M S A) (k : A -> M S B) : M S B :=
  fun s => match m s with
           | (Ok a, s') => k a s'
           | (Raise e, s') => (Raise e, s')
           end.
Definition get {S} : M S S := fun s => (Ok s, s).
Definition gets {S A} (f : S -> A) : M S A := fun s => (Ok (f s), s).
Definition modify {S} (f : S -> S) : M S unit := fun s => (Ok tt, f s).

(** Run a computation on a component of the state. *)
Definition zoom {S T A} (proj : S -> T) (upd : T -> S -> S) (m : M T A) : M S A :=
  fun s => let (r, t) := m (proj s) in (r, upd t s).

(** [d[key]] on an entry that may be absent. *)
Definition getitem {S A} (key : string) (o : option A) : M S A :=
  match o with
  | Some a => ret a
  | None => raise (KeyError key)
  end.

Definition is_ok {A} (r : result A) : bool :=
  match r with Ok _ => true | Raise _ => false end.

End Py.
Import Py.

Notation "x <- m ;; k" := (bind m (fun x => k))
  (at level 61, m at next level, right associativity).
Notation "m ;;; k" := (bind m (fun _ => k))
  (at level 61, right associativity).

(** The specification's name of the error of lines 40 and 128. *)
Definition UnsupportedSerializationMode : string -> exn := NotImplementedError.

(** Python's [str.format] on the two-placeholder message of the decoders. *)
Definition newline : string := String (ascii_of_nat 10) EmptyString.

Definition memberwise_message (type_name file_path : string) : string :=
  ("memberwise serialization of " ++ type_name ++ newline ++ "in file " ++ file_path)%string.

(** [f"{k}"] for a Python int. *)
Definition str_of_int (k : Z) : string := NilZero.string_of_int (Z.to_int k).

(* ================================================================== *)
(** ** Bytes, [struct.Struct] and [numpy.dtype] *)

Definition byte_val (b : byte) : Z := Z.of_N (Byte.to_N b).

(** Big-endian unsigned value of a byte string. *)
Fixpoint be_unsigned_from (acc : Z) (bs : list byte) : Z :=
  match bs with
  | [] => acc
  | b :: rest => be_unsigned_from (acc * 256 + byte_val b) rest
  end.

Definition be_unsigned (bs : list byte) : Z := be_unsigned_from 0 bs.

(** Two's complement reading of the same bytes. *)
Definition be_signed (bs : list byte) : Z :=
  let u := be_unsigned bs in
  let w := 8 * Z.of_nat (List.length bs) in
  if u <? 2 ^ (w - 1) then u else u - 2 ^ w.

Module struct.

(** The format characters the module uses, all after a [>] prefix
    (big-endian, standard sizes, no alignment). *)
Inductive code : Type :=
| pad      (* x : one pad byte, no value *)
| uint32   (* I *)
| int32.   (* i *)

Definition Struct : Type := list code.

Definition code_of_ascii (c : ascii) : option code :=
  if Ascii.eqb c "x" then Some pad
  else if Ascii.eqb c "I" then Some uint32
  else if Ascii.eqb c "i" then Some int32
  else None.

Fixpoint codes_of (s : string) : option Struct :=
  match s with
  | EmptyString => Some []
  | String c rest =>
      match code_of_ascii c, codes_of rest with
      | Some k, Some ks => Some (k :: ks)
      | _, _ => None
      end
  end.

(** [struct.Struct(fmt)] for a big-endian format string. *)
Definition parse (fmt : string) : option Struct :=
  match fmt with
  | String c rest => if Ascii.eqb c ">" then codes_of rest else None
  | EmptyString => None
  end.

Definition code_size (k : code) : Z :=
  match k with pad => 1 | uint32 => 4 | int32 => 4 end.

(** [Struct.size] *)
Fixpoint size (f : Struct) : Z :=
  match f with
  | [] => 0
  | k :: rest => code_size k + size rest
  end.

(** [Struct.unpack(buffer)]: the values of the non-pad codes, in order.
    [None] stands for [struct.error] (buffer of the wrong length). *)
Fixpoint unpack_from (f : Struct) (bs : list byte) : option (list Z) :=
  match f with
  | [] => match bs with [] => Some [] | _ => None end
  | pad :: rest =>
      match bs with
      | _ :: bs' => unpack_from rest bs'
      | [] => None
      end
  | uint32 :: rest =>
      match bs with
      | b0 :: b1 :: b2 :: b3 :: bs' =>
          option_map (cons (be_unsigned [b0; b1; b2; b3])) (unpack_from rest bs')
      | _ => None
      end
  | int32 :: rest =>
      match bs with
      | b0 :: b1 :: b2 :: b3 :: bs' =>
          option_map (cons (be_signed [b0; b1; b2; b3])) (unpack_from rest bs')
      | _ => None
      end
  end.

Definition unpack (f : Struct) (bs : list byte) : option (list Z) := unpack_from f bs.

End struct.

Module numpy.

Inductive byteorder : Type := big | little | native.
Inductive kind : Type := unsigned_int | signed_int.

Record dtype : Type := mk_dtype {
  order : byteorder;
  dkind : kind;
  itemsize : Z
}.

Definition kind_of_ascii (c : ascii) : option kind :=
  if Ascii.eqb c "u" then Some unsigned_int
  else if Ascii.eqb c "i" then Some signed_int
  else None.

Definition size_of_ascii (c : ascii) : option Z :=
  if Ascii.eqb c "1" then Some 1
  else if Ascii.eqb c "2" then Some 2
  else if Ascii.eqb c "4" then Some 4
  else if Ascii.eqb c "8" then Some 8
  else None.

Definition kind_size (o : byteorder) (s : string) : option dtype :=
  match s with
  | String k (String n EmptyString) =>
      match kind_of_ascii k, size_of_ascii n with
      | Some k', Some n' => Some (mk_dtype o k' n')
      | _, _ => None
      end
  | _ => None
  end.

(** [numpy.dtype(s)] for the type strings of the module: an optional
    byte-order character, a kind and an item size. *)
Definition parse (s : string) : option dtype :=
  match s with
  | String c rest =>
      if Ascii.eqb c ">" then kind_size big rest
      else if Ascii.eqb c "<" then kind_size little rest
      else if Ascii.eqb c "=" then kind_size native rest
      else kind_size native s
  | EmptyString => None
  end.

(** One item of a buffer: the integer its bytes spell in the byte order of
    the dtype (the native order is taken to be little-endian). *)
Definition item (d : dtype) (bs : list byte) : Z :=
  let bs := match order d with big => bs | _ => rev bs end in
  match dkind d with
  | unsigned_int => be_unsigned bs
  | signed_int => be_signed bs
  end.

(** [numpy.frombuffer(buffer, dtype)]: the items of the buffer in order;
    [None] stands for the [ValueError] of a buffer whose size is not a
    multiple of the item size.  The fuel bounds the number of items. *)
Fixpoint frombuffer_fuel (fuel : nat) (d : dtype) (bs : list byte) : option (list Z) :=
  match bs with
  | [] => Some []
  | _ :: _ =>
      match fuel with
      | O => None
      | S fuel' =>
          let n := Z.to_nat (itemsize d) in
          if (List.length bs <? n)%nat then None
          else option_map (cons (item d (firstn n bs)))
                          (frombuffer_fuel fuel' d (skipn n bs))
      end
  end.

Definition frombuffer (d : dtype) (bs : list byte) : option (list Z) :=
  frombuffer_fuel (List.length bs) d bs.

End numpy.

Definition force {A} (default : A) (o : option A) : A :=
  match o with Some a => a | None => default end.

(** Line 15: [_tref_format1 = struct.Struct(">xxIxxxxxx")] *)
Definition _tref_format1 : struct.Struct :=
  Eval cbv in force [] (struct.parse ">xxIxxxxxx").

(** Lines 85-86 *)
Definition _trefarray_format1 : struct.Struct :=
  Eval cbv in force [] (struct.parse ">i").

Definition _trefarray_dtype : numpy.dtype :=
  Eval cbv in force (numpy.mk_dtype numpy.native numpy.signed_int 0) (numpy.parse ">i4").

(* ================================================================== *)
(** ** The byte reader: [chunk] and [cursor] *)

Module Chunk.

Definition t : Type := list byte.

(** Modelled from the spec: the bounds-checked access to the bytes of a
    chunk ([uproot.source.chunk.Chunk.get], not in src/).  The bytes of the
    positions [start] up to [stop] when both lie in the chunk, which begins
    at position 0; [None] stands for the specification's TruncatedInput. *)
Definition get (chunk : t) (start stop : Z) : option (list byte) :=
  if (0 <=? start) && (stop <=? Z.of_nat (List.length chunk))
  then Some (firstn (Z.to_nat (stop - start)) (skipn (Z.to_nat start) chunk))
  else None.

End Chunk.

Module Cursor.

(** The state of a cursor is its index, a Python int. *)
Definition t : Type := Z.

(** Modelled from the spec: "fixed-count skip" ([Cursor.skip], not in src/).
    The call of lines 134 and 137 passes no chunk, so the index moves
    unchecked and the next read meets the bound. *)
Definition skip (num_bytes : Z) : M t unit :=
  modify (fun index => index + num_bytes).

(** Modelled from the spec: the step the reads of the ByteReader share,
    "sequential, offset-tracked, bounds-checked" (the body of the [Cursor]
    methods, not in src/): take [n] bytes at the index and move behind
    them; a failed read raises TruncatedInput and leaves the index. *)
Definition take (chunk : Chunk.t) (n : Z) : M t (list byte) :=
  fun start =>
    match Chunk.get chunk start (start + n) with
    | Some bs => (Ok bs, start + n)
    | None => (Raise TruncatedInput, start)
    end.

(** Modelled from the spec: "fixed-width fields via a format descriptor"
    ([Cursor.field], not in src/): the first value of the format, unpacked
    from [format.size] bytes at the index. *)
Definition field (chunk : Chunk.t) (format : struct.Struct) : M t Z :=
  bs <- take chunk (struct.size format) ;;
  match struct.unpack format bs with
  | Some (v :: _) => ret v
  | Some [] => raise IndexError
  | None => raise ValueError
  end.

(** Modelled from the spec: "a short length byte, or an escape value
    triggering a wider length field, followed by that many raw bytes"
    ([Cursor.string], not in src/).  The escape value is 255 and the wide
    field four big-endian bytes, the "1-5" length bytes of line 191.  The
    specification leaves the rule of the wide field open (section 9); it
    is read unsigned here, which is also its signed reading for every
    length below 2^31.  The name is kept as its bytes. *)
Definition string (chunk : Chunk.t) : M t (list byte) :=
  b <- take chunk 1 ;;
  if be_unsigned b =? 255
  then (wide <- take chunk 4 ;; take chunk (be_unsigned wide))
  else take chunk (be_unsigned b).

(** Modelled from the spec: "raw fixed-type arrays" ([Cursor.array], not in
    src/): [length] items of [dtype] at the index. *)
Definition array (chunk : Chunk.t) (length : Z) (dtype : numpy.dtype) : M t (list Z) :=
  bs <- take chunk (length * numpy.itemsize dtype) ;;
  match numpy.frombuffer dtype bs with
  | Some items => ret items
  | None => raise ValueError
  end.

End Cursor.

(* ================================================================== *)
(** ** Python dictionaries whose order matters *)

Section Dict.
Context {K V : Type} (eqb : K -> K -> bool).

(** [d[k] = v]: replaces the value of a present key in place, appends a new
    key at the end. *)
Fixpoint dict_set (k : K) (v : V) (d : list (K * V)) : list (K * V) :=
  match d with
  | [] => [(k, v)]
  | (k', v') :: rest =>
      if eqb k k' then (k, v) :: rest else (k', v') :: dict_set k v rest
  end.

Fixpoint dict_get (k : K) (d : list (K * V)) : option V :=
  match d with
  | [] => None
  | (k', v') :: rest => if eqb k k' then Some v' else dict_get k rest
  end.

End Dict.

(* ================================================================== *)
(** ** Awkward forms *)

Local Unset Elimination Schemes.

(** Values of a [parameters] dictionary. *)
Inductive json : Type :=
| JStr (s : string)
| JBool (b : bool)
| JObj (fields : list (string * json)).

Definition parameters : Type := list (string * json).

(** [awkward.forms]: the three forms the module builds. *)
Inductive Form : Type :=
| NumpyForm (inner_shape : list Z) (itemsize : Z) (format : string)
            (params : parameters) (form_key : option string)
| ListOffsetForm (offsets : string) (content : Form)
                 (params : parameters) (form_key : option string)
| RecordForm (contents : list (string * Form))
             (params : parameters) (form_key : option string).

Definition form_key_of (f : Form) : option string :=
  match f with
  | NumpyForm _ _ _ _ k => k
  | ListOffsetForm _ _ _ k => k
  | RecordForm _ _ k => k
  end.

Definition content_of (f : Form) : option Form :=
  match f with
  | ListOffsetForm _ c _ _ => Some c
  | _ => None
  end.

Definition field_of (name : string) (f : Form) : option Form :=
  match f with
  | RecordForm contents _ _ => dict_get String.eqb name contents
  | _ => None
  end.

Definition field_names (f : Form) : list string :=
  match f with
  | RecordForm contents _ _ => map fst contents
  | _ => []
  end.

(** A form without the node keys of the Forth generation. *)
Fixpoint strip_form_keys (f : Form) : Form :=
  match f with
  | NumpyForm sh sz fmt ps _ => NumpyForm sh sz fmt ps None
  | ListOffsetForm off c ps _ => ListOffsetForm off (strip_form_keys c) ps None
  | RecordForm contents ps _ =>
      RecordForm (map (fun kf => let '(k, c) := kf in (k, strip_form_keys c)) contents)
                 ps None
  end.

(** The specification's SchemaNode: "Scalar(type), String, List(element),
    Record(name, ordered mapping of field-name to SchemaNode)". *)
Inductive SchemaNode : Type :=
| Scalar (itemsize : Z) (format : string)
| String_
| List_ (element : SchemaNode)
| Record_ (name : string) (fields : list (string * SchemaNode)).

Local Set Elimination Schemes.

Definition is_string_array (ps : parameters) : bool :=
  match dict_get String.eqb "__array__" ps with
  | Some (JStr a) => String.eqb a "string"
  | _ => false
  end.

Definition record_name (ps : parameters) : string :=
  match dict_get String.eqb "__record__" ps with
  | Some (JStr n) => n
  | _ => EmptyString
  end.

(** The schema node a form stands for: a list form marked as a string is
    the String node, the node keys play no part. *)
Fixpoint schema_of (f : Form) : SchemaNode :=
  match f with
  | NumpyForm _ sz fmt _ _ => Scalar sz fmt
  | ListOffsetForm _ c ps _ =>
      if is_string_array ps then String_ else List_ (schema_of c)
  | RecordForm contents ps _ =>
      Record_ (record_name ps)
              (map (fun kf => let '(k, c) := kf in (k, schema_of c)) contents)
  end.

(* ================================================================== *)
(** ** The build context *)

(** [id(cls)] of the two classes of the module. *)
Inductive model_class : Type := Class_TRef | Class_TRefArray.

Definition model_class_eqb (a b : model_class) : bool :=
  match a, b with
  | Class_TRef, Class_TRef => true
  | Class_TRefArray, Class_TRefArray => true
  | _, _ => false
  end.

Module ForthGenerator.

Inductive hook : Type :=
| traverse
| pre (cls : model_class)
| post (cls : model_class).

(** Modelled from the spec: the BuildContext's Forth generator
    ([context["forth"]], whose class is not in src/): "a monotonically
    increasing node-key counter", the code and the key range registered per
    class, one entry per block, and the hooks in the order of their
    registration. *)
Record t : Type := mk {
  last_key : Z;
  forth_code : list (model_class * option string);
  forth_keys : list (model_class * (Z * Z));
  sequence : list hook
}.

(** Modelled from the spec: the counter read ([get_last_key], not in src/). *)
Definition get_last_key (g : t) : Z := last_key g.

(** Modelled from the spec: "Allocate a contiguous block of node keys from
    the BuildContext counter" ([init_keys], not in src/): the keys [start]
    to [stop] go to [cls] and the counter stands at [stop]. *)
Definition init_keys (cls : model_class) (start stop : Z) (g : t) : t :=
  mk stop (forth_code g) (forth_keys g ++ [(cls, (start, stop))]) (sequence g).

(** [forth_obj.forth_code[id(cls)] = None] *)
Definition clear_code (cls : model_class) (g : t) : t :=
  mk (last_key g) (dict_set model_class_eqb cls None (forth_code g))
     (forth_keys g) (sequence g).

Definition add_hook (h : hook) (g : t) : t :=
  mk (last_key g) (forth_code g) (forth_keys g) (sequence g ++ [h]).

(** Modelled from the spec: the "pre" and "post" hooks of a record and the
    "traverse" hook ([register_pre], [register_post], [traverse_aform], not
    in src/). *)
Definition register_pre (cls : model_class) : t -> t := add_hook (pre cls).
Definition register_post (cls : model_class) : t -> t := add_hook (post cls).
Definition traverse_aform : t -> t := add_hook traverse.

End ForthGenerator.

(** The entries of the [context] dictionary the module reads or writes;
    [None] is an absent key. *)
Record Context : Type := mk_Context {
  forth : option ForthGenerator.t;      (* context["forth"] *)
  index_format : option string;         (* context["index_format"] *)
  prev_key : option string;             (* context["prev-key"] *)
  tobject_header : option bool          (* context["tobject_header"] *)
}.

Definition set_forth (g : ForthGenerator.t) (c : Context) : Context :=
  mk_Context (Some g) (index_format c) (prev_key c) (tobject_header c).

Definition set_prev_key (k : string) (c : Context) : Context :=
  mk_Context (forth c) (index_format c) (Some k) (tobject_header c).

(** [del context["prev-key"]] *)
Definition del_prev_key : M Context unit :=
  c <- get ;;
  getitem "prev-key" (prev_key c) ;;;
  modify (fun c => mk_Context (forth c) (index_format c) None (tobject_header c)).

(** A method call on the object under [context["forth"]]: one that changes
    the object, and one that reads it. *)
Definition on_forth (f : ForthGenerator.t -> ForthGenerator.t) : M Context unit :=
  c <- get ;;
  g <- getitem "forth" (forth c) ;;
  modify (set_forth (f g)).

Definition ask_forth {A} (f : ForthGenerator.t -> A) : M Context A :=
  c <- get ;;
  g <- getitem "forth" (forth c) ;;
  ret (f g).

(* ================================================================== *)
(** ** Collaborators of the form builders *)

Module _util.

(** Modelled from the spec: the type of a "Scalar(type)" node, written as
    the format character of its kind and item size. *)
Definition format_of (d : numpy.dtype) : string :=
  match numpy.dkind d, numpy.itemsize d with
  | numpy.unsigned_int, 1 => "B"
  | numpy.unsigned_int, 2 => "H"
  | numpy.unsigned_int, 4 => "I"
  | numpy.unsigned_int, _ => "Q"
  | numpy.signed_int, 1 => "b"
  | numpy.signed_int, 2 => "h"
  | numpy.signed_int, 4 => "i"
  | numpy.signed_int, _ => "q"
  end.

(** Modelled from the spec: the native scalar node, "Scalar(type)", of a
    dtype ([uproot._util.awkward_form], not in src/); it has "no side
    effects beyond tree construction". *)
Definition awkward_form (d : numpy.dtype) : M Context Form :=
  ret (NumpyForm [] (numpy.itemsize d) (format_of d) [] None).

(** Modelled from the spec: the scalar node of the bytecode mode
    ([uproot._util.awkward_form_forth], not in src/): the same node, keyed
    by the "previous key" pointer the caller has set. *)
Definition awkward_form_forth (d : numpy.dtype) : M Context Form :=
  c <- get ;;
  k <- getitem "prev-key" (prev_key c) ;;
  ret (NumpyForm [] (numpy.itemsize d) (format_of d) [] (Some k)).

End _util.

(** The parameters of a string node, written out at lines 186-193. *)
Definition string_parameters (header : bool) (length_bytes : string) : parameters :=
  [ ("__array__", JStr "string");
    ("uproot", JObj [ ("as", JStr "string");
                      ("header", JBool header);
                      ("length_bytes", JStr length_bytes) ]) ].

Definition char_parameters : parameters := [ ("__array__", JStr "char") ].

Module AsString.

Record t : Type := mk {
  header : bool;
  length_bytes : string;
  typename : string
}.

(** [uproot.containers.AsString(header, typename=...)]; the length bytes
    default to "1-5". *)
Definition new (header : bool) (typename : string) : t := mk header "1-5" typename.

(** Modelled from the spec: the native "String" node
    ([uproot.containers.AsString.awkward_form], not in src/), in the
    representation of a string that lines 177-195 write out: a list of
    characters marked as a string. *)
Definition awkward_form (self : t) : M Context Form :=
  c <- get ;;
  off <- getitem "index_format" (index_format c) ;;
  ret (ListOffsetForm off
         (NumpyForm [] 1 "B" char_parameters None)
         (string_parameters (header self) (length_bytes self))
         None).

End AsString.

(** Modelled from the spec: the "flat ordered field list" of the strided
    schema ([uproot.interpretation.objects.AsStridedObjects], not in src/):
    the value keeps the model, the members and the original it is given. *)
Record AsStridedObjects (O : Type) : Type := mk_AsStridedObjects {
  strided_model : model_class;
  strided_members : list (string * numpy.dtype);
  strided_original : option O
}.
Arguments mk_AsStridedObjects {O} _ _ _.
Arguments strided_model {O} _.
Arguments strided_members {O} _.
Arguments strided_original {O} _.

Definition dtype_of (s : string) : numpy.dtype :=
  force (numpy.mk_dtype numpy.native numpy.signed_int 0) (numpy.parse s).

Definition node_key (k : Z) : string := ("node" ++ str_of_int k)%string.

(** The state a decoder works on: the object, the cursor and the context. *)
Record World (T : Type) : Type := mk_World {
  self : T;
  cursor : Cursor.t;
  context : Context
}.
Arguments mk_World {T} _ _ _.
Arguments self {T} _.
Arguments cursor {T} _.
Arguments context {T} _.

Definition on_self {T} (f : T -> T) : M (World T) unit :=
  modify (fun w => mk_World (f (self w)) (cursor w) (context w)).

Definition on_cursor {T A} (m : M Cursor.t A) : M (World T) A :=
  zoom cursor (fun i w => mk_World (self w) i (context w)) m.

Definition on_context {T A} (m : M Context A) : M (World T) A :=
  zoom context (fun c w => mk_World (self w) (cursor w) c) m.

(* ================================================================== *)
(** ** [class Model_TRef] *)

Module Model_TRef.

Record t : Type := mk {
  is_memberwise : bool;
  file_path : string;          (* self.file.file_path *)
  _ref : option Z
}.

Definition type_name : string := "Model_TRef".

(** [__repr__] (lines 48-49, and 148-164 of [Model_TRefArray]) only formats
    text and is left out. *)

(** Lines 28-33 *)
Definition ref (self : t) : result Z :=
  match _ref self with
  | Some r => Ok r
  | None => Raise (AttributeError "_ref")
  end.

(** Lines 35-36 *)
Definition read_numbytes_version (chunk : Chunk.t) : M (World t) unit := ret tt.

(** Lines 38-46.  [self], [cursor] and [context] are the state; [file] is
    not used. *)
Definition read_members (chunk : Chunk.t) : M (World t) unit :=
  w <- get ;;
  if is_memberwise (self w)
  then raise (NotImplementedError (memberwise_message type_name (file_path (self w))))
  else
    r <- on_cursor (Cursor.field chunk _tref_format1) ;;
    on_self (fun s => mk (is_memberwise s) (file_path s) (Some r)).

(** Lines 51-63 *)
Definition strided_interpretation {O : Type}
    (header tobject_header : bool) (original : option O) : AsStridedObjects O :=
  let members := [] in
  let members := members ++ [("@pidf", dtype_of ">u2")] in
  let members := members ++ [("ref", dtype_of ">u4")] in
  let members := members ++ [("@other1", dtype_of ">u2")] in
  let members := members ++ [("@other2", dtype_of ">u4")] in
  mk_AsStridedObjects Class_TRef members original.

(** Lines 65-82.  [contents] keeps the order of its insertions; a record
    form is read by the names of its fields, and the order in which the
    library lists them is not part of this model. *)
Definition awkward_form : M Context Form :=
  let contents := [] in
  c <- get ;;
  flag <- getitem "tobject_header" (tobject_header c) ;;
  contents <-
    (if flag : bool
     then
       f <- _util.awkward_form (dtype_of "u2") ;;
       let contents := dict_set String.eqb "@pidf" f contents in
       f <- _util.awkward_form (dtype_of "u4") ;;
       let contents := dict_set String.eqb "ref" f contents in
       f <- _util.awkward_form (dtype_of "u2") ;;
       let contents := dict_set String.eqb "@other1" f contents in
       f <- _util.awkward_form (dtype_of "u4") ;;
       let contents := dict_set String.eqb "@other2" f contents in
       ret contents
     else ret contents) ;;
  ret (RecordForm contents [("__record__", JStr "TRef")] None).

(** Lines 48-49: [f"<TRef {self._ref}>"] *)
Definition __repr__ (self : t) : result string :=
  match _ref self with
  | Some r => Ok ("<TRef " ++ str_of_int r ++ ">")%string
  | None => Raise (AttributeError "_ref")
  end.

End Model_TRef.

(* ================================================================== *)
(** ** [class Model_TRefArray] *)

(** Python's [a[i]] on a one-dimensional array, for an integer index. *)
Definition ndarray_getitem (a : list Z) (i : Z) : result Z :=
  let n := Z.of_nat (List.length a) in
  let j := if i <? 0 then i + n else i in
  if (0 <=? j) && (j <? n)
  then match nth_error a (Z.to_nat j) with
       | Some v => Ok v
       | None => Raise IndexError
       end
  else Raise IndexError.

Module Model_TRefArray.

(** [self._members], with the two keys the class writes. *)
Record members : Type := mk_members {
  fName : option (list byte);
  fSize : option Z
}.

Record t : Type := mk {
  is_memberwise : bool;
  file_path : string;          (* self.file.file_path *)
  _members : members;
  _data : option (list Z)
}.

Definition type_name : string := "Model_TRefArray".

Definition attr {A} (name : string) (o : option A) : result A :=
  match o with
  | Some a => Ok a
  | None => Raise (AttributeError name)
  end.

(** Lines 96-101 *)
Definition refs (self : t) : result (list Z) := attr "_data" (_data self).

(** Lines 103-108 *)
Definition nbytes (self : t) : result Z :=
  match attr "_data" (_data self) with
  | Ok d => Ok (Z.of_nat (List.length d) * numpy.itemsize _trefarray_dtype)
  | Raise e => Raise e
  end.

(** Lines 110-115 *)
Definition name (self : t) : result (list byte) :=
  match fName (_members self) with
  | Some n => Ok n
  | None => Raise (KeyError "fName")
  end.

Definition set_fName (n : list byte) (s : t) : t :=
  mk (is_memberwise s) (file_path s)
     (mk_members (Some n) (fSize (_members s))) (_data s).

Definition set_fSize (n : Z) (s : t) : t :=
  mk (is_memberwise s) (file_path s)
     (mk_members (fName (_members s)) (Some n)) (_data s).

Definition set_data (d : list Z) (s : t) : t :=
  mk (is_memberwise s) (file_path s) (_members s) (Some d).

(** Lines 117-140.  The locals [forth], [jump] and [fcode_pre] are never
    read; with a ["forth"] key in the context the generator is told to
    traverse before the memberwise test. *)
Definition read_members (chunk : Chunk.t) : M (World t) unit :=
  w <- get ;;
  (match forth (context w) with
   | Some _ => on_context (on_forth ForthGenerator.traverse_aform)
   | None => ret tt
   end) ;;;
  if is_memberwise (self w)
  then raise (NotImplementedError (memberwise_message type_name (file_path (self w))))
  else
    on_cursor (Cursor.skip 10) ;;;
    n <- on_cursor (Cursor.string chunk) ;;
    on_self (set_fName n) ;;;
    sz <- on_cursor (Cursor.field chunk _trefarray_format1) ;;
    on_self (set_fSize sz) ;;;
    on_cursor (Cursor.skip 6) ;;;
    w <- get ;;
    sz <- getitem "fSize" (fSize (_members (self w))) ;;
    d <- on_cursor (Cursor.array chunk sz _trefarray_dtype) ;;
    on_self (set_data d).

(** Lines 142-143 *)
Definition __getitem__ (self : t) (where_ : Z) : result Z :=
  match attr "_data" (_data self) with
  | Ok d => ndarray_getitem d where_
  | Raise e => Raise e
  end.

(** Lines 145-146 *)
Definition __len__ (self : t) : result Z :=
  match attr "_data" (_data self) with
  | Ok d => Ok (Z.of_nat (List.length d))
  | Raise e => Raise e
  end.

(** Lines 166-228.  The state is the [context] dictionary, which the
    bytecode mode writes; a ["forth"] key selects that mode. *)
Definition awkward_form : M Context Form :=
  c <- get ;;
  match forth c with
  | Some _ =>
      on_forth (ForthGenerator.clear_code Class_TRefArray) ;;;
      key <- ask_forth ForthGenerator.get_last_key ;;
      on_forth (ForthGenerator.init_keys Class_TRefArray (key + 1) (key + 6)) ;;;
      on_forth (ForthGenerator.register_pre Class_TRefArray) ;;;
      let contents := [] in
      c <- get ;;
      off <- getitem "index_format" (index_format c) ;;
      let contents :=
        dict_set String.eqb "fName"
          (ListOffsetForm off
             (NumpyForm [] 1 "B" char_parameters (Some (node_key (key + 3))))
             (string_parameters false "1-5")
             (Some (node_key (key + 2))))
          contents in
      modify (set_prev_key (node_key (key + 4))) ;;;
      f <- _util.awkward_form_forth (dtype_of "i4") ;;
      let contents := dict_set String.eqb "fSize" f contents in
      modify (set_prev_key (node_key (key + 6))) ;;;
      c <- get ;;
      off <- getitem "index_format" (index_format c) ;;
      f <- _util.awkward_form_forth (dtype_of "i4") ;;
      let contents :=
        dict_set String.eqb "refs"
          (ListOffsetForm off f [] (Some (node_key (key + 5)))) contents in
      on_forth (ForthGenerator.register_post Class_TRefArray) ;;;
      del_prev_key ;;;
      ret (RecordForm contents [("__record__", JStr "TRefArray")]
                      (Some (node_key (key + 1))))
  | None =>
      let contents := [] in
      f <- AsString.awkward_form (AsString.new false "TString") ;;
      let contents := dict_set String.eqb "fName" f contents in
      f <- _util.awkward_form (dtype_of "i4") ;;
      let contents := dict_set String.eqb "fSize" f contents in
      c <- get ;;
      off <- getitem "index_format" (index_format c) ;;
      f <- _util.awkward_form (dtype_of "i4") ;;
      let contents := dict_set String.eqb "refs" (ListOffsetForm off f [] None) contents in
      ret (RecordForm contents [("__record__", JStr "TRefArray")] None)
  end.

End Model_TRefArray.

(** Lines 231-232: [uproot.classes] *)
Definition classes : list (string * model_class) :=
  dict_set String.eqb "TRefArray" Class_TRefArray
    (dict_set String.eqb "TRef" Class_TRef []).

(* ================================================================== *)
(** ** The layout of a [TRefArray] record *)

(** The length bytes of a string of [n] bytes: one byte below 255, or the
    escape byte 255 and four big-endian bytes. *)
Definition is_length_prefix (lp : list byte) (n : Z) : Prop :=
  match lp with
  | [b] => byte_val b <> 255 /\ byte_val b = n
  | [e; b0; b1; b2; b3] => byte_val e = 255 /\ be_unsigned [b0; b1; b2; b3] = n
  | _ => False
  end.

(** The parts of a record on the wire, in the order of section 6 of the
    specification. *)
Record ArrayRef_wire : Type := mk_ArrayRef_wire {
  wire_header : list byte;        (* 10 reserved bytes *)
  wire_name_length : list byte;   (* the length bytes of the name *)
  wire_name : list byte;
  wire_size : list byte;          (* 4 bytes, the declared count *)
  wire_reserved : list byte;      (* 6 reserved bytes *)
  wire_refs : list byte           (* 4 bytes per reference *)
}.

Definition wire_bytes (r : ArrayRef_wire) : list byte :=
  wire_header r ++ wire_name_length r ++ wire_name r ++ wire_size r
    ++ wire_reserved r ++ wire_refs r.

Definition declared_size (r : ArrayRef_wire) : Z := be_signed (wire_size r).

(** The bytes of the name on the wire, length bytes included. *)
Definition name_byte_length (r : ArrayRef_wire) : Z :=
  Z.of_nat (List.length (wire_name_length r)) + Z.of_nat (List.length (wire_name r)).

(** The parts before the references have their widths. *)
Definition wellformed_prefix (r : ArrayRef_wire) : Prop :=
  List.length (wire_header r) = 10%nat /\
  is_length_prefix (wire_name_length r) (Z.of_nat (List.length (wire_name r))) /\
  List.length (wire_size r) = 4%nat /\
  List.length (wire_reserved r) = 6%nat.

(** A valid stream: moreover the declared count is not negative and four
    bytes follow per declared reference. *)
Definition valid_ArrayRef (r : ArrayRef_wire) : Prop :=
  wellformed_prefix r /\
  0 <= declared_size r /\
  Z.of_nat (List.length (wire_refs r)) = 4 * declared_size r.

(** The context a decoder of [TRefArray] leaves: the traverse hook is added
    when a Forth generator is present. *)
Definition traversed (c : Context) : Context :=
  match forth c with
  | Some g => set_forth (ForthGenerator.traverse_aform g) c
  | None => c
  end.

Definition ten_zeros : list byte := [x00; x00; x00; x00; x00; x00; x00; x00; x00; x00].
Definition six_zeros : list byte := [x00; x00; x00; x00; x00; x00].

Definition fresh_TRefArray : Model_TRefArray.t :=
  Model_TRefArray.mk false "file.root" (Model_TRefArray.mk_members None None) None.

Definition plain_context : Context := mk_Context None (Some "i64") None (Some true).

(** The example of the specification: size 3 and the references 5, -2 and
    100000, under the name "AB". *)
Definition example_wire : ArrayRef_wire :=
  mk_ArrayRef_wire ten_zeros [x02] [x41; x42] [x00; x00; x00; x03] six_zeros
    [x00; x00; x00; x05; xff; xff; xff; xfe; x00; x01; x86; xa0].


(** A record whose size field holds -1, under an empty name. *)
Definition negative_wire : ArrayRef_wire :=
  mk_ArrayRef_wire ten_zeros [x00] [] [xff; xff; xff; xff] six_zeros [].

(* ================================================================== *)
(** ** Schemas: node keys, layouts and the contexts of the examples *)

(** The node keys of a form, parents before their contents. *)
Fixpoint form_keys (f : Form) : list string :=
  let own k := match k with Some s => [s] | None => [] end in
  match f with
  | NumpyForm _ _ _ _ k => own k
  | ListOffsetForm _ c _ k => own k ++ form_keys c
  | RecordForm contents _ k =>
      own k ++ flat_map (fun kf => let '(_, c) := kf in form_keys c) contents
  end.

(** The generator after one [TRefArray] build that began at key [base]. *)
Definition built_TRefArray (base : Z) (g : ForthGenerator.t) : ForthGenerator.t :=
  ForthGenerator.register_post Class_TRefArray
    (ForthGenerator.register_pre Class_TRefArray
       (ForthGenerator.init_keys Class_TRefArray (base + 1) (base + 6)
          (ForthGenerator.clear_code Class_TRefArray g))).

(** The same context without the ["forth"] key: the native mode. *)
Definition native_of (c : Context) : Context :=
  mk_Context None (index_format c) (prev_key c) (tobject_header c).

(** The schema of a [TRefArray] in the words of the specification:
    [{name: String, size: Scalar(int32), refs: List(Scalar(int32))}]. *)
Definition ArrayRef_schema : SchemaNode :=
  Record_ "TRefArray"
    [ ("fName", String_); ("fSize", Scalar 4 "i"); ("refs", List_ (Scalar 4 "i")) ].

(** The scalar node of a dtype. *)
Definition scalar_of (d : numpy.dtype) : SchemaNode :=
  Scalar (numpy.itemsize d) (_util.format_of d).

(** The four fields of the strided layout as scalar nodes. *)
Definition four_scalar_fields : list (string * SchemaNode) :=
  [ ("@pidf", Scalar 2 "H"); ("ref", Scalar 4 "I");
    ("@other1", Scalar 2 "H"); ("@other2", Scalar 4 "I") ].

(** Where the members of a packed struct lie: each begins where the one
    before it ends. *)
Fixpoint member_spans (start : Z) (members : list (string * numpy.dtype))
  : list (string * (Z * Z)) :=
  match members with
  | [] => []
  | (n, d) :: rest =>
      (n, (start, start + numpy.itemsize d))
        :: member_spans (start + numpy.itemsize d) rest
  end.

Fixpoint members_size (members : list (string * numpy.dtype)) : Z :=
  match members with
  | [] => 0
  | (_, d) :: rest => numpy.itemsize d + members_size rest
  end.

(** A context in bytecode mode whose caller has set a previous key. *)
Definition nested_context : Context :=
  mk_Context (Some (ForthGenerator.mk 10 [] [] [])) (Some "i64") (Some "node7") (Some true).

(** A context in bytecode mode with no previous key. *)
Definition forth_context : Context :=
  mk_Context (Some (ForthGenerator.mk 10 [] [] [])) (Some "i64") None (Some true).

(** A native context that asks for no [TObject] header. *)
Definition headerless_context : Context :=
  mk_Context None (Some "i64") None (Some false).

(** The class a record form is named after, its [__record__] parameter. *)
Definition record_name_of (f : Form) : option string :=
  match f with
  | RecordForm _ ps _ => Some (record_name ps)
  | _ => None
  end.

(** The node key of a field of a record, and of the content of a field that
    is a list. *)
Definition field_key (name : string) (f : Form) : option string :=
  match field_of name f with
  | Some x => form_key_of x
  | None => None
  end.

Definition content_key (name : string) (f : Form) : option string :=
  match field_of name f with
  | Some x => match content_of x with
              | Some c => form_key_of c
              | None => None
              end
  | None => None
  end.

(* ================================================================== *)
(** ** The sequence protocol, strided records and repeated builds *)

Module Sequence.

(** [collections.abc.Sequence.__iter__], the mixin [Model_TRefArray]
    inherits at line 89, with its items collected in a list: [self[0]],
    [self[1]], ... up to the first [IndexError]; any other exception
    passes.  The fuel bounds the loop, [None] is a loop cut short. *)
Fixpoint iter_from (fuel : nat) (getitem : Z -> result Z) (i : Z)
  : option (result (list Z)) :=
  match fuel with
  | O => None
  | S fuel' =>
      match getitem i with
      | Ok v =>
          match iter_from fuel' getitem (i + 1) with
          | Some (Ok vs) => Some (Ok (v :: vs))
          | other => other
          end
      | Raise IndexError => Some (Ok [])
      | Raise e => Some (Raise e)
      end
  end.

Definition __iter__ (fuel : nat) (self : Model_TRefArray.t) : option (result (list Z)) :=
  iter_from fuel (Model_TRefArray.__getitem__ self) 0.

(** The items [self[i]] for the indices of a list, in its order. *)
Fixpoint items_at (getitem : Z -> result Z) (indices : list Z) : result (list Z) :=
  match indices with
  | [] => Ok []
  | i :: rest =>
      match getitem i with
      | Ok v =>
          match items_at getitem rest with
          | Ok vs => Ok (v :: vs)
          | Raise e => Raise e
          end
      | Raise e => Raise e
      end
  end.

(** [collections.abc.Sequence.__reversed__]: [self[i]] for [i] in
    [reversed(range(len(self)))]. *)
Definition __reversed__ (self : Model_TRefArray.t) : result (list Z) :=
  match Model_TRefArray.__len__ self with
  | Ok n => items_at (Model_TRefArray.__getitem__ self)
                     (rev (map Z.of_nat (seq 0 (Z.to_nat n))))
  | Raise e => Raise e
  end.

End Sequence.

(** The member [name] of one record of a packed struct: the bytes of the
    member's span, read with the member's dtype. *)
Fixpoint strided_field_from (start : Z) (members : list (string * numpy.dtype))
         (name : string) (record : list byte) : option Z :=
  match members with
  | [] => None
  | (n, d) :: rest =>
      if String.eqb n name
      then Some (numpy.item d (firstn (Z.to_nat (numpy.itemsize d))
                                      (skipn (Z.to_nat start) record)))
      else strided_field_from (start + numpy.itemsize d) rest name record
  end.

Definition strided_field {O : Type} (interp : AsStridedObjects O)
           (name : string) (record : list byte) : option Z :=
  strided_field_from 0 (strided_members interp) name record.

(** [n] builds of the form of [TRefArray], one after the other in the same
    context. *)
Fixpoint awkward_forms (n : nat) : M Context (list Form) :=
  match n with
  | O => ret []
  | S n' =>
      f <- Model_TRefArray.awkward_form ;;
      fs <- awkward_forms n' ;;
      ret (f :: fs)
  end.

(** The hooks [n] builds register. *)
Fixpoint build_hooks (n : nat) : list ForthGenerator.hook :=
  match n with
  | O => []
  | S n' => ForthGenerator.pre Class_TRefArray
              :: ForthGenerator.post Class_TRefArray :: build_hooks n'
  end.

(** A context in bytecode mode that lacks the index format. *)
Definition formatless_context : Context :=
  mk_Context (Some (ForthGenerator.mk 10 [] [] [])) None None (Some true).

(** A record cut short: size 3, and only the first of its references. *)
Definition truncated_wire : ArrayRef_wire :=
  mk_ArrayRef_wire ten_zeros [x02] [x41; x42] [x00; x00; x00; x03] six_zeros
    [x00; x00; x00; x05].

(* ================================================================== *)
(** * Properties *)

(** ** Bytes and the reader *)

Lemma byte_val_range (b : byte) : 0 <= byte_val b < 256.
Proof.
  unfold byte_val. pose proof (Byte.to_N_bounded b). lia.
Qed.

Lemma be_unsigned_4 (b0 b1 b2 b3 : byte) :
  be_unsigned [b0; b1; b2; b3] =
  byte_val b0 * 2 ^ 24 + byte_val b1 * 2 ^ 16 + byte_val b2 * 2 ^ 8 + byte_val b3.
Proof.
  unfold be_unsigned. simpl. lia.
Qed.

Lemma be_unsigned_4_range (b0 b1 b2 b3 : byte) :
  0 <= be_unsigned [b0; b1; b2; b3] < 2 ^ 32.
Proof.
  rewrite be_unsigned_4.
  pose proof (byte_val_range b0). pose proof (byte_val_range b1).
  pose proof (byte_val_range b2). pose proof (byte_val_range b3). lia.
Qed.

(** The bytes between two positions of a chunk split in three. *)
Lemma Chunk_get_app (pre mid post : list byte) :
  Chunk.get (pre ++ mid ++ post)
            (Z.of_nat (List.length pre))
            (Z.of_nat (List.length pre) + Z.of_nat (List.length mid)) = Some mid.
Proof.
  unfold Chunk.get.
  rewrite !length_app.
  replace ((0 <=? Z.of_nat (List.length pre)) &&
           (Z.of_nat (List.length pre) + Z.of_nat (List.length mid) <=?
            Z.of_nat (List.length pre + (List.length mid + List.length post))))
    with true.
  2:{ symmetry. apply andb_true_iff. split; apply Z.leb_le; lia. }
  f_equal.
  replace (Z.to_nat (Z.of_nat (List.length pre) + Z.of_nat (List.length mid)
                     - Z.of_nat (List.length pre))) with (List.length mid) by lia.
  rewrite Nat2Z.id.
  rewrite skipn_app, skipn_all, Nat.sub_diag. simpl.
  rewrite firstn_app, firstn_all, Nat.sub_diag. simpl.
  apply app_nil_r.
Qed.

Lemma Cursor_take_app (chunk pre mid post : list byte) (n i : Z) :
  chunk = pre ++ mid ++ post ->
  i = Z.of_nat (List.length pre) ->
  n = Z.of_nat (List.length mid) ->
  Cursor.take chunk n i = (Ok mid, i + n).
Proof.
  intros -> -> ->. unfold Cursor.take. now rewrite Chunk_get_app.
Qed.

Lemma Cursor_field_app (chunk pre mid post : list byte) (format : struct.Struct)
      (i v : Z) (vs : list Z) :
  chunk = pre ++ mid ++ post ->
  i = Z.of_nat (List.length pre) ->
  struct.size format = Z.of_nat (List.length mid) ->
  struct.unpack format mid = Some (v :: vs) ->
  Cursor.field chunk format i = (Ok v, i + struct.size format).
Proof.
  intros Hc Hi Hn Hu. unfold Cursor.field, bind.
  rewrite (Cursor_take_app chunk pre mid post _ _ Hc Hi Hn).
  now rewrite Hu.
Qed.

(** ** The decoders *)

(** C2.  A [TRef] record that is not memberwise decodes from any twelve
    bytes: the call succeeds, [ref] is the big-endian unsigned integer of
    the four bytes at offset 2, whatever the two bytes before and the six
    bytes after them hold, and the cursor stands twelve bytes further. *)
Theorem TRef_read_members_twelve_bytes
    (pre post : list byte) (r0 r1 b0 b1 b2 b3 r2 r3 r4 r5 r6 r7 : byte)
    (s : Model_TRef.t) (ctx : Context) :
  Model_TRef.is_memberwise s = false ->
  let chunk := pre ++ [r0; r1; b0; b1; b2; b3; r2; r3; r4; r5; r6; r7] ++ post in
  let start := Z.of_nat (List.length pre) in
  let out := Model_TRef.read_members chunk (mk_World s start ctx) in
  let value := byte_val b0 * 2 ^ 24 + byte_val b1 * 2 ^ 16 + byte_val b2 * 2 ^ 8 + byte_val b3 in
  fst out = Ok tt /\
  Model_TRef.ref (self (snd out)) = Ok value /\
  0 <= value < 2 ^ 32 /\
  cursor (snd out) = start + 12 /\
  cursor (snd out) - start = struct.size _tref_format1 /\
  context (snd out) = ctx.
Proof.
  intros Hm chunk start out value.
  assert (Hf : Cursor.field chunk _tref_format1 start
               = (Ok (be_unsigned [b0; b1; b2; b3]), start + 12)).
  { apply (Cursor_field_app chunk pre
             [r0; r1; b0; b1; b2; b3; r2; r3; r4; r5; r6; r7] post
             _tref_format1 start _ []); reflexivity. }
  assert (Hout : out = (Ok tt,
                        mk_World (Model_TRef.mk false (Model_TRef.file_path s)
                                                (Some (be_unsigned [b0; b1; b2; b3])))
                                 (start + 12) ctx)).
  { unfold out, Model_TRef.read_members, bind, get. simpl.
    rewrite Hm. unfold on_cursor, zoom. simpl. rewrite Hf. simpl.
    unfold on_self, modify. simpl. now rewrite Hm. }
  rewrite Hout. simpl. unfold Model_TRef.ref. simpl.
  rewrite be_unsigned_4. fold value.
  pose proof (be_unsigned_4_range b0 b1 b2 b3) as Hr.
  rewrite be_unsigned_4 in Hr. fold value in Hr.
  repeat split; try reflexivity; try lia.
Qed.

(** The example of the specification: reserved zeros and the reference
    number 1. *)
Lemma TRef_read_members_twelve_bytes_witness :
  let chunk := [x00; x00; x00; x00; x00; x01; x00; x00; x00; x00; x00; x00] in
  let out := Model_TRef.read_members chunk
               (mk_World (Model_TRef.mk false "file.root" None) 0
                         (mk_Context None None None None)) in
  fst out = Ok tt /\ Model_TRef.ref (self (snd out)) = Ok 1 /\ cursor (snd out) = 12.
Proof.
  pose proof (TRef_read_members_twelve_bytes [] []
                x00 x00 x00 x00 x00 x01 x00 x00 x00 x00 x00 x00
                (Model_TRef.mk false "file.root" None)
                (mk_Context None None None None) eq_refl) as H.
  cbv zeta in H. destruct H as (H1 & H2 & _ & H3 & _).
  intros chunk out. split; [exact H1 | split; [exact H2 | exact H3]].
Defined.

(** C3.  A memberwise record of either class is refused with
    [NotImplementedError] (the specification's UnsupportedSerializationMode)
    whatever the chunk holds, and the cursor and the object are as they
    were. *)
Theorem read_members_memberwise_unsupported
    (chunk : Chunk.t) (w1 : World Model_TRef.t) (w2 : World Model_TRefArray.t) :
  Model_TRef.is_memberwise (self w1) = true ->
  Model_TRefArray.is_memberwise (self w2) = true ->
  let out1 := Model_TRef.read_members chunk w1 in
  let out2 := Model_TRefArray.read_members chunk w2 in
  (fst out1 = Raise (UnsupportedSerializationMode
                       (memberwise_message "Model_TRef" (Model_TRef.file_path (self w1)))) /\
   cursor (snd out1) = cursor w1 /\ self (snd out1) = self w1) /\
  (fst out2 = Raise (UnsupportedSerializationMode
                       (memberwise_message "Model_TRefArray"
                                           (Model_TRefArray.file_path (self w2)))) /\
   cursor (snd out2) = cursor w2 /\ self (snd out2) = self w2).
Proof.
  intros Hm1 Hm2 out1 out2. subst out1 out2. split.
  - unfold Model_TRef.read_members, bind, get. rewrite Hm1. simpl. auto.
  - unfold Model_TRefArray.read_members, bind, get.
    destruct (forth (context w2)) as [g|] eqn:Hg.
    + unfold on_context, on_forth, zoom, bind, get, getitem. rewrite Hg. simpl.
      rewrite Hm2. simpl. auto.
    + simpl. rewrite Hm2. simpl. auto.
Qed.

Lemma read_members_memberwise_unsupported_witness :
  let chunk := [x00; x00; x00; x00; x00; x01; x00; x00; x00; x00; x00; x00] in
  let ctx := mk_Context None None None None in
  let w1 := mk_World (Model_TRef.mk true "file.root" None) 0 ctx in
  let w2 := mk_World (Model_TRefArray.mk true "file.root"
                        (Model_TRefArray.mk_members None None) None) 0 ctx in
  cursor (snd (Model_TRef.read_members chunk w1)) = 0 /\
  cursor (snd (Model_TRefArray.read_members chunk w2)) = 0.
Proof.
  intros chunk ctx w1 w2.
  pose proof (read_members_memberwise_unsupported chunk w1 w2 eq_refl eq_refl) as H.
  cbv zeta in H. destruct H as [(_ & H1 & _) (_ & H2 & _)].
  split; [exact H1 | exact H2].
Defined.

Lemma be_unsigned_1 (b : byte) : be_unsigned [b] = byte_val b.
Proof. reflexivity. Qed.

Lemma Cursor_string_app (chunk pre lp name post : list byte) (i : Z) :
  chunk = pre ++ lp ++ name ++ post ->
  i = Z.of_nat (List.length pre) ->
  is_length_prefix lp (Z.of_nat (List.length name)) ->
  Cursor.string chunk i
  = (Ok name, i + Z.of_nat (List.length lp) + Z.of_nat (List.length name)).
Proof.
  intros Hc Hi Hp. unfold Cursor.string, bind.
  destruct lp as [|e [|b0 [|b1 [|b2 [|b3 [|? ?]]]]]]; simpl in Hp; try contradiction.
  - destruct Hp as [Hne Hn].
    rewrite (Cursor_take_app chunk pre [e] (name ++ post) 1 i Hc Hi eq_refl).
    rewrite be_unsigned_1.
    destruct (Z.eqb_spec (byte_val e) 255) as [E|_]; [contradiction|].
    rewrite (Cursor_take_app chunk (pre ++ [e]) name post (byte_val e) (i + 1)).
    + f_equal. simpl. lia.
    + rewrite Hc, <- app_assoc. reflexivity.
    + rewrite length_app. simpl. lia.
    + exact Hn.
  - destruct Hp as [He Hn].
    rewrite (Cursor_take_app chunk pre [e] ([b0; b1; b2; b3] ++ name ++ post) 1 i);
      [ | rewrite Hc; reflexivity | exact Hi | reflexivity ].
    rewrite be_unsigned_1, He. simpl (255 =? 255).
    cbv iota beta.
    rewrite (Cursor_take_app chunk (pre ++ [e]) [b0; b1; b2; b3] (name ++ post) 4 (i + 1));
      [ | rewrite Hc, <- app_assoc; reflexivity
        | rewrite length_app; simpl; lia | reflexivity ].
    rewrite (Cursor_take_app chunk (pre ++ [e; b0; b1; b2; b3]) name post
               (be_unsigned [b0; b1; b2; b3]) (i + 1 + 4)).
    + f_equal. simpl List.length. lia.
    + rewrite Hc, <- app_assoc. reflexivity.
    + rewrite length_app. simpl. lia.
    + exact Hn.
Qed.

(** [numpy.frombuffer] on a buffer of [m] items returns [m] values, the
    [i]-th read from the [i]-th group of bytes. *)
Lemma frombuffer_fuel_items (d : numpy.dtype) (m : nat) :
  forall (fuel : nat) (bs : list byte),
    (0 < Z.to_nat (numpy.itemsize d))%nat ->
    List.length bs = (m * Z.to_nat (numpy.itemsize d))%nat ->
    (m <= fuel)%nat ->
    exists items,
      numpy.frombuffer_fuel fuel d bs = Some items /\
      List.length items = m /\
      forall i, (i < m)%nat ->
        nth_error items i
        = Some (numpy.item d (firstn (Z.to_nat (numpy.itemsize d))
                                     (skipn (i * Z.to_nat (numpy.itemsize d)) bs))).
Proof.
  set (n := Z.to_nat (numpy.itemsize d)).
  induction m as [|m IH]; intros fuel bs Hn Hlen Hfuel.
  - destruct bs; [|discriminate]. exists []. simpl.
    destruct fuel; repeat split; auto; intros i Hi; inversion Hi.
  - destruct fuel as [|fuel]; [lia|].
    destruct bs as [|b bs]; [simpl in Hlen; lia|].
    cbn [numpy.frombuffer_fuel]. fold n.
    destruct (Nat.ltb_spec (List.length (b :: bs)) n) as [Hlt|_].
    { rewrite Hlen in Hlt. simpl in Hlt. lia. }
    destruct (IH fuel (skipn n (b :: bs)) Hn) as (items & Hitems & Hl & Hnth).
    + rewrite length_skipn, Hlen. simpl. lia.
    + lia.
    + exists (numpy.item d (firstn n (b :: bs)) :: items).
      rewrite Hitems. simpl. repeat split; auto.
      intros [|i] Hi.
      * reflexivity.
      * cbn [nth_error]. rewrite Hnth by lia.
        rewrite skipn_skipn.
        replace (S i * n)%nat with (i * n + n)%nat by lia. reflexivity.
Qed.

Lemma frombuffer_items (d : numpy.dtype) (m : nat) (bs : list byte) :
  (0 < Z.to_nat (numpy.itemsize d))%nat ->
  List.length bs = (m * Z.to_nat (numpy.itemsize d))%nat ->
  exists items,
    numpy.frombuffer d bs = Some items /\
    List.length items = m /\
    forall i, (i < m)%nat ->
      nth_error items i
      = Some (numpy.item d (firstn (Z.to_nat (numpy.itemsize d))
                                   (skipn (i * Z.to_nat (numpy.itemsize d)) bs))).
Proof.
  intros Hn Hlen. apply frombuffer_fuel_items; auto.
  rewrite Hlen. nia.
Qed.

Lemma Cursor_array_app (chunk pre mid post : list byte) (d : numpy.dtype) (i len : Z) :
  chunk = pre ++ mid ++ post ->
  i = Z.of_nat (List.length pre) ->
  0 < numpy.itemsize d ->
  0 <= len ->
  Z.of_nat (List.length mid) = len * numpy.itemsize d ->
  exists items,
    Cursor.array chunk len d i = (Ok items, i + len * numpy.itemsize d) /\
    numpy.frombuffer d mid = Some items /\
    Z.of_nat (List.length items) = len /\
    forall k, (k < List.length items)%nat ->
      nth_error items k
      = Some (numpy.item d (firstn (Z.to_nat (numpy.itemsize d))
                                   (skipn (k * Z.to_nat (numpy.itemsize d)) mid))).
Proof.
  intros Hc Hi Hd Hlen Hmid.
  destruct (frombuffer_items d (Z.to_nat len) mid) as (items & Hf & Hl & Hnth).
  - lia.
  - nia.
  - exists items. unfold Cursor.array, bind.
    rewrite (Cursor_take_app chunk pre mid post _ i Hc Hi (eq_sym Hmid)).
    rewrite Hf. unfold ret. repeat split; auto.
    + lia.
    + intros k Hk. apply Hnth. lia.
Qed.

Lemma bind_run {S A B} (m : M S A) (k : A -> M S B) (s : S) :
  bind m k s = match m s with
               | (Ok a, s') => k a s'
               | (Raise e, s') => (Raise e, s')
               end.
Proof. reflexivity. Qed.

Lemma on_forth_run (f : ForthGenerator.t -> ForthGenerator.t) (c : Context)
      (g : ForthGenerator.t) :
  forth c = Some g ->
  on_forth f c = (Ok tt, set_forth (f g) c).
Proof.
  intros Hg. unfold on_forth, bind, get, getitem. rewrite Hg. reflexivity.
Qed.

(** The decoder of [TRefArray] step by step: once the name and the size are
    read, the outcome is that of the array read behind the six skipped
    bytes, with the size handed over as it was read. *)
Lemma TRefArray_read_members_steps
    (chunk : Chunk.t) (s : Model_TRefArray.t) (i : Z) (ctx : Context)
    (n : list byte) (c1 sz c2 : Z) :
  Model_TRefArray.is_memberwise s = false ->
  Cursor.string chunk (i + 10) = (Ok n, c1) ->
  Cursor.field chunk _trefarray_format1 c1 = (Ok sz, c2) ->
  Model_TRefArray.read_members chunk (mk_World s i ctx)
  = let read := Model_TRefArray.mk false (Model_TRefArray.file_path s)
                  (Model_TRefArray.mk_members (Some n) (Some sz)) in
    match Cursor.array chunk sz _trefarray_dtype (c2 + 6) with
    | (Ok d, c3) => (Ok tt, mk_World (read (Some d)) c3 (traversed ctx))
    | (Raise e, c3) => (Raise e, mk_World (read (Model_TRefArray._data s)) c3 (traversed ctx))
    end.
Proof.
  intros Hm Hstr Hfld.
  unfold Model_TRefArray.read_members, traversed.
  unfold bind at 1. unfold get at 1. cbn [context self cursor].
  assert (Hpre : forall c,
    (if Model_TRefArray.is_memberwise s
     then raise (NotImplementedError
                   (memberwise_message Model_TRefArray.type_name
                                       (Model_TRefArray.file_path s)))
     else
       on_cursor (Cursor.skip 10) ;;;
       n <- on_cursor (Cursor.string chunk) ;;
       on_self (Model_TRefArray.set_fName n) ;;;
       sz <- on_cursor (Cursor.field chunk _trefarray_format1) ;;
       on_self (Model_TRefArray.set_fSize sz) ;;;
       on_cursor (Cursor.skip 6) ;;;
       w <- get ;;
       sz0 <- getitem "fSize" (Model_TRefArray.fSize (Model_TRefArray._members (self w))) ;;
       d <- on_cursor (Cursor.array chunk sz0 _trefarray_dtype) ;;
       on_self (Model_TRefArray.set_data d)) (mk_World s i c)
    = match Cursor.array chunk sz _trefarray_dtype (c2 + 6) with
      | (Ok d, c3) =>
          (Ok tt, mk_World (Model_TRefArray.mk false (Model_TRefArray.file_path s)
                              (Model_TRefArray.mk_members (Some n) (Some sz)) (Some d)) c3 c)
      | (Raise e, c3) =>
          (Raise e, mk_World (Model_TRefArray.mk false (Model_TRefArray.file_path s)
                                (Model_TRefArray.mk_members (Some n) (Some sz))
                                (Model_TRefArray._data s)) c3 c)
      end).
  { intros c. rewrite Hm.
    unfold bind, on_cursor, on_self, zoom, Cursor.skip, modify, get, getitem, ret.
    cbn [self cursor context]. rewrite Hstr.
    cbn [self cursor context Model_TRefArray.set_fName Model_TRefArray.is_memberwise
         Model_TRefArray.file_path Model_TRefArray._members Model_TRefArray._data
         Model_TRefArray.fName Model_TRefArray.fSize].
    rewrite Hfld.
    cbn [self cursor context Model_TRefArray.set_fSize Model_TRefArray.is_memberwise
         Model_TRefArray.file_path Model_TRefArray._members Model_TRefArray._data
         Model_TRefArray.fName Model_TRefArray.fSize].
    destruct (Cursor.array chunk sz _trefarray_dtype (c2 + 6)) as [[d|e] c3];
      unfold Model_TRefArray.set_data, Model_TRefArray.set_fSize, Model_TRefArray.set_fName;
      cbn [self cursor context Model_TRefArray.is_memberwise
           Model_TRefArray.file_path Model_TRefArray._members Model_TRefArray._data
           Model_TRefArray.fName Model_TRefArray.fSize]; rewrite ?Hm; reflexivity. }
  destruct (forth ctx) as [g|] eqn:Hg.
  - rewrite bind_run. unfold on_context, zoom. cbn [context self cursor].
    rewrite (on_forth_run _ ctx g Hg). apply Hpre.
  - rewrite bind_run. unfold ret at 1. apply Hpre.
Qed.

(** The name and the size of a record with a well-formed prefix. *)
Lemma wire_prefix_reads (pre post : list byte) (r : ArrayRef_wire) :
  wellformed_prefix r ->
  let chunk := pre ++ wire_bytes r ++ post in
  let start := Z.of_nat (List.length pre) in
  let c1 := start + 10 + name_byte_length r in
  Cursor.string chunk (start + 10) = (Ok (wire_name r), c1) /\
  Cursor.field chunk _trefarray_format1 c1 = (Ok (declared_size r), c1 + 4) /\
  exists before, chunk = before ++ wire_refs r ++ post /\
                 c1 + 4 + 6 = Z.of_nat (List.length before).
Proof.
  intros (Hh & Hp & Hs & Hr) chunk start c1.
  destruct r as [HD LP N SZ RS RF]. unfold declared_size, name_byte_length in *.
  cbn [wire_header wire_name_length wire_name wire_size wire_reserved wire_refs] in *.
  unfold wire_bytes in chunk.
  cbn [wire_header wire_name_length wire_name wire_size wire_reserved wire_refs] in chunk.
  destruct SZ as [|z0 [|z1 [|z2 [|z3 [|? ?]]]]]; try discriminate Hs.
  split; [|split].
  - replace c1 with (start + 10 + Z.of_nat (List.length LP) + Z.of_nat (List.length N))
      by (unfold c1; lia).
    apply (Cursor_string_app chunk (pre ++ HD) LP N ([z0; z1; z2; z3] ++ RS ++ RF ++ post)).
    + unfold chunk. now rewrite <- !app_assoc.
    + rewrite length_app. unfold start. lia.
    + exact Hp.
  - apply (Cursor_field_app chunk (pre ++ HD ++ LP ++ N) [z0; z1; z2; z3] (RS ++ RF ++ post)
             _trefarray_format1 c1 _ []).
    + unfold chunk. now rewrite <- !app_assoc.
    + rewrite !length_app. unfold c1, start. lia.
    + reflexivity.
    + reflexivity.
  - exists (pre ++ HD ++ LP ++ N ++ [z0; z1; z2; z3] ++ RS). split.
    + unfold chunk. now rewrite <- !app_assoc.
    + rewrite !length_app. unfold c1, start. simpl List.length. lia.
Qed.

(** C1.  A valid [TRefArray] stream that is not memberwise decodes: behind
    ten skipped bytes the name, then the size, and behind six more skipped
    bytes the references, each the big-endian signed integer of its four
    bytes.  The decoder returns, there are as many references as the size
    says, the cursor has moved by 20 bytes, the bytes of the name and four
    bytes per reference, and a size of zero gives no references. *)
Theorem TRefArray_read_members_valid_stream
    (pre post : list byte) (r : ArrayRef_wire)
    (s : Model_TRefArray.t) (ctx : Context) :
  Model_TRefArray.is_memberwise s = false ->
  valid_ArrayRef r ->
  let chunk := pre ++ wire_bytes r ++ post in
  let start := Z.of_nat (List.length pre) in
  let out := Model_TRefArray.read_members chunk (mk_World s start ctx) in
  let size := declared_size r in
  exists refs,
    fst out = Ok tt /\
    Model_TRefArray.name (self (snd out)) = Ok (wire_name r) /\
    Model_TRefArray.fSize (Model_TRefArray._members (self (snd out))) = Some size /\
    Model_TRefArray.refs (self (snd out)) = Ok refs /\
    Z.of_nat (List.length refs) = size /\
    (forall k, (k < List.length refs)%nat ->
       nth_error refs k = Some (be_signed (firstn 4 (skipn (k * 4) (wire_refs r))))) /\
    cursor (snd out) - start = 20 + name_byte_length r + 4 * size /\
    (size = 0 -> refs = []).
Proof.
  intros Hm (Hpre & Hsz & Hrefs) chunk start out size.
  destruct (wire_prefix_reads pre post r Hpre) as (Hstr & Hfld & before & Hc & Hb).
  fold chunk start size in Hstr, Hfld, Hc, Hb.
  set (c1 := start + 10 + name_byte_length r) in *.
  destruct (Cursor_array_app chunk before (wire_refs r) post
              _trefarray_dtype (c1 + 4 + 6) size Hc Hb)
    as (refs & Harr & Hfb & Hlen & Hnth).
  { reflexivity. }
  { exact Hsz. }
  { simpl numpy.itemsize. fold size in Hrefs. lia. }
  exists refs.
  assert (Hout : out = (Ok tt,
             mk_World (Model_TRefArray.mk false (Model_TRefArray.file_path s)
                         (Model_TRefArray.mk_members (Some (wire_name r)) (Some size))
                         (Some refs))
                      (c1 + 4 + 6 + size * 4) (traversed ctx))).
  { unfold out.
    rewrite (TRefArray_read_members_steps chunk s start ctx (wire_name r) c1 size (c1 + 4)
               Hm Hstr Hfld).
    cbv zeta. rewrite Harr. reflexivity. }
  rewrite Hout. cbn [fst snd self cursor].
  unfold Model_TRefArray.name, Model_TRefArray.refs, Model_TRefArray.attr.
  cbn [Model_TRefArray._members Model_TRefArray._data Model_TRefArray.fName
       Model_TRefArray.fSize].
  do 4 (split; [reflexivity|]).
  split; [exact Hlen|].
  split; [|split].
  - intros k Hk. rewrite (Hnth k Hk). reflexivity.
  - unfold c1. lia.
  - intros Hz. destruct refs; [reflexivity|]. simpl in Hlen. lia.
Qed.

Lemma example_wire_valid : valid_ArrayRef example_wire.
Proof.
  unfold valid_ArrayRef, wellformed_prefix. cbn.
  repeat split; try reflexivity; try discriminate.
Defined.

Lemma TRefArray_read_members_valid_stream_witness :
  let out := Model_TRefArray.read_members (wire_bytes example_wire)
               (mk_World fresh_TRefArray 0 plain_context) in
  exists refs,
    fst out = Ok tt /\
    Model_TRefArray.refs (self (snd out)) = Ok refs /\
    Z.of_nat (List.length refs) = 3 /\
    cursor (snd out) - 0 = 20 + 3 + 4 * 3.
Proof.
  intros out.
  destruct (TRefArray_read_members_valid_stream [] [] example_wire
              fresh_TRefArray plain_context eq_refl example_wire_valid)
    as (refs & H1 & _ & _ & H4 & H5 & _ & H7 & _).
  exists refs.
  split; [|split; [|split]].
  - exact H1.
  - exact H4.
  - exact H5.
  - exact H7.
Defined.

(** The edge case of the specification: a size of zero decodes to no
    references. *)
Example TRefArray_size_zero :
  let r := mk_ArrayRef_wire ten_zeros [x00] [] [x00; x00; x00; x00] six_zeros [] in
  let out := Model_TRefArray.read_members (wire_bytes r)
               (mk_World fresh_TRefArray 0 plain_context) in
  fst out = Ok tt /\ Model_TRefArray.refs (self (snd out)) = Ok [] /\ cursor (snd out) = 21.
Proof. repeat split. Qed.

Lemma Cursor_array_not_corrupt (chunk : Chunk.t) (len : Z) (d : numpy.dtype) (i : Z) :
  fst (Cursor.array chunk len d i) <> Raise CorruptRecord.
Proof.
  unfold Cursor.array, bind, Cursor.take.
  destruct (Chunk.get chunk i (i + len * numpy.itemsize d)); [|discriminate].
  destruct (numpy.frombuffer d l); discriminate.
Qed.

Lemma negative_wire_wellformed : wellformed_prefix negative_wire.
Proof.
  unfold wellformed_prefix. cbn. repeat split; try reflexivity; discriminate.
Defined.

(** C4, as it stands, fails: a record whose size field is -1 is not
    refused.  The decoder returns, with the size -1 and no references, and
    the cursor four bytes before the end of the record. *)
Lemma TRefArray_negative_size_not_rejected :
  let out := Model_TRefArray.read_members (wire_bytes negative_wire)
               (mk_World fresh_TRefArray 0 plain_context) in
  wellformed_prefix negative_wire /\
  declared_size negative_wire = -1 /\
  fst out <> Raise CorruptRecord /\
  fst out = Ok tt /\
  Model_TRefArray.fSize (Model_TRefArray._members (self (snd out))) = Some (-1) /\
  Model_TRefArray.refs (self (snd out)) = Ok [] /\
  cursor (snd out) = 17.
Proof.
  cbv zeta. split.
  - exact negative_wire_wellformed.
  - repeat split. discriminate.
Qed.

(** C4, amended.  A record with a negative size field is not checked: the
    decoder hands the size as it was read to the array read behind the six
    skipped bytes, ends as that read ends, with the cursor where it leaves
    it, and never raises CorruptRecord. *)
Theorem TRefArray_read_members_negative_size
    (pre post : list byte) (r : ArrayRef_wire)
    (s : Model_TRefArray.t) (ctx : Context) :
  Model_TRefArray.is_memberwise s = false ->
  wellformed_prefix r ->
  declared_size r < 0 ->
  let chunk := pre ++ wire_bytes r ++ post in
  let start := Z.of_nat (List.length pre) in
  let out := Model_TRefArray.read_members chunk (mk_World s start ctx) in
  let attempt := Cursor.array chunk (declared_size r) _trefarray_dtype
                              (start + 20 + name_byte_length r) in
  fst out <> Raise CorruptRecord /\
  fst out = match fst attempt with Ok _ => Ok tt | Raise e => Raise e end /\
  cursor (snd out) = snd attempt /\
  Model_TRefArray.fSize (Model_TRefArray._members (self (snd out))) = Some (declared_size r).
Proof.
  intros Hm Hpre Hneg chunk start out attempt.
  destruct (wire_prefix_reads pre post r Hpre) as (Hstr & Hfld & _).
  fold chunk start in Hstr, Hfld.
  assert (Hout := TRefArray_read_members_steps chunk s start ctx _ _ _ _ Hm Hstr Hfld).
  fold out in Hout. cbv zeta in Hout.
  replace (start + 10 + name_byte_length r + 4 + 6)
    with (start + 20 + name_byte_length r) in Hout by lia.
  fold attempt in Hout.
  pose proof (Cursor_array_not_corrupt chunk (declared_size r) _trefarray_dtype
                (start + 20 + name_byte_length r)) as Hnc.
  fold attempt in Hnc.
  rewrite Hout. destruct attempt as [[d|e] c3]; cbn [fst snd self cursor] in *.
  - split; [discriminate|]. repeat split.
  - split; [|repeat split].
    intros E. apply Hnc. injection E as ->. reflexivity.
Qed.

Lemma TRefArray_read_members_negative_size_witness :
  let out := Model_TRefArray.read_members (wire_bytes negative_wire)
               (mk_World fresh_TRefArray 0 plain_context) in
  declared_size negative_wire < 0 /\ fst out <> Raise CorruptRecord.
Proof.
  intros out.
  assert (Hneg : declared_size negative_wire < 0) by reflexivity.
  split; [exact Hneg|].
  exact (proj1 (TRefArray_read_members_negative_size [] [] negative_wire
                  fresh_TRefArray plain_context eq_refl
                  negative_wire_wellformed Hneg)).
Defined.

(** ** The sequence view of a decoded [TRefArray] *)

Lemma bind_ok_inv {S A B} (m : M S A) (k : A -> M S B) (s s' : S) (b : B) :
  bind m k s = (Ok b, s') ->
  exists a s1, m s = (Ok a, s1) /\ k a s1 = (Ok b, s').
Proof.
  unfold bind. destruct (m s) as [[a|e] s1]; intros H.
  - exists a, s1. auto.
  - discriminate.
Qed.

Ltac bind_inv H :=
  let a := fresh "a" in
  let s := fresh "s" in
  let E := fresh "E" in
  apply bind_ok_inv in H; destruct H as (a & s & E & H).

(** A decoder that returns has set the references. *)
Lemma TRefArray_read_members_sets_data (chunk : Chunk.t) (w w' : World Model_TRefArray.t) :
  Model_TRefArray.read_members chunk w = (Ok tt, w') ->
  exists d, Model_TRefArray._data (self w') = Some d.
Proof.
  unfold Model_TRefArray.read_members. intros H.
  bind_inv H. bind_inv H.
  destruct (Model_TRefArray.is_memberwise (self a)); [discriminate|].
  do 9 bind_inv H.
  unfold on_self, modify in H. injection H as <-.
  eexists. reflexivity.
Qed.

Lemma ndarray_getitem_in_range (a : list Z) (i : Z) :
  0 <= i < Z.of_nat (List.length a) ->
  exists v, ndarray_getitem a i = Ok v /\ nth_error a (Z.to_nat i) = Some v.
Proof.
  intros Hi. unfold ndarray_getitem.
  destruct (Z.ltb_spec i 0) as [?|_]; [lia|].
  destruct (Z.leb_spec 0 i) as [_|?]; [|lia].
  destruct (Z.ltb_spec i (Z.of_nat (List.length a))) as [_|?]; [|lia].
  simpl.
  destruct (nth_error a (Z.to_nat i)) as [v|] eqn:E.
  - exists v. auto.
  - apply nth_error_None in E. lia.
Qed.

(** C10.  A decoded [TRefArray] is a sequence view of its references: its
    length is the number of references, and at every index from 0 below the
    length it yields the reference at that index. *)
Theorem TRefArray_sequence_view (chunk : Chunk.t) (w w' : World Model_TRefArray.t) :
  Model_TRefArray.read_members chunk w = (Ok tt, w') ->
  let a := self w' in
  exists refs,
    Model_TRefArray.refs a = Ok refs /\
    Model_TRefArray.__len__ a = Ok (Z.of_nat (List.length refs)) /\
    forall i, 0 <= i < Z.of_nat (List.length refs) ->
      exists v,
        Model_TRefArray.__getitem__ a i = Ok v /\
        ndarray_getitem refs i = Ok v /\
        nth_error refs (Z.to_nat i) = Some v.
Proof.
  intros H a.
  destruct (TRefArray_read_members_sets_data chunk w w' H) as (d & Hd).
  exists d. fold a in Hd.
  unfold Model_TRefArray.refs, Model_TRefArray.__len__, Model_TRefArray.__getitem__,
    Model_TRefArray.attr.
  rewrite Hd. split; [reflexivity|]. split; [reflexivity|].
  intros i Hi.
  destruct (ndarray_getitem_in_range d i Hi) as (v & Hv & Hn).
  exists v. auto.
Qed.

Lemma TRefArray_sequence_view_witness :
  let out := Model_TRefArray.read_members (wire_bytes example_wire)
               (mk_World fresh_TRefArray 0 plain_context) in
  exists refs,
    Model_TRefArray.refs (self (snd out)) = Ok refs /\
    Model_TRefArray.__len__ (self (snd out)) = Ok (Z.of_nat (List.length refs)).
Proof.
  intros out.
  destruct (TRefArray_sequence_view (wire_bytes example_wire)
              (mk_World fresh_TRefArray 0 plain_context) (snd out) eq_refl)
    as (refs & H1 & H2 & _).
  exists refs. split; [exact H1 | exact H2].
Defined.

(** ** Node keys *)

Lemma str_of_int_inj (a b : Z) : str_of_int a = str_of_int b -> a = b.
Proof.
  unfold str_of_int. intros H.
  assert (Hnz : forall z, Z.to_int z <> Decimal.Pos Decimal.Nil /\
                          Z.to_int z <> Decimal.Neg Decimal.Nil).
  { intros [|p|p]; simpl; split; try discriminate;
      intros E; injection E as E; now apply DecimalPos.Unsigned.to_uint_nonnil in E. }
  apply DecimalZ.to_int_inj.
  apply (f_equal NilZero.int_of_string) in H.
  rewrite !NilZero.isi in H by apply Hnz.
  now injection H.
Qed.

Lemma node_key_inj (a b : Z) : node_key a = node_key b -> a = b.
Proof.
  unfold node_key. simpl. intros H. injection H as H. now apply str_of_int_inj.
Qed.

(** ** The form builders *)

(** The bytecode-mode build of [TRefArray], run on any context that holds a
    generator and an index format. *)
Lemma TRefArray_awkward_form_forth_run (c : Context) (g : ForthGenerator.t) (off : string) :
  forth c = Some g ->
  index_format c = Some off ->
  let key := ForthGenerator.get_last_key g in
  Model_TRefArray.awkward_form c
  = (Ok (RecordForm
           [ ("fName",
              ListOffsetForm off
                (NumpyForm [] 1 "B" char_parameters (Some (node_key (key + 3))))
                (string_parameters false "1-5") (Some (node_key (key + 2))));
             ("fSize", NumpyForm [] 4 "i" [] (Some (node_key (key + 4))));
             ("refs",
              ListOffsetForm off
                (NumpyForm [] 4 "i" [] (Some (node_key (key + 6))))
                [] (Some (node_key (key + 5)))) ]
           [("__record__", JStr "TRefArray")] (Some (node_key (key + 1)))),
     mk_Context (Some (built_TRefArray key g)) (Some off) None (tobject_header c)).
Proof.
  intros Hg Hoff key. destruct c as [f i p t]. simpl in Hg, Hoff. subst f i.
  reflexivity.
Qed.

(** The native build of [TRefArray]. *)
Lemma TRefArray_awkward_form_native_run (c : Context) (off : string) :
  forth c = None ->
  index_format c = Some off ->
  Model_TRefArray.awkward_form c
  = (Ok (RecordForm
           [ ("fName",
              ListOffsetForm off (NumpyForm [] 1 "B" char_parameters None)
                (string_parameters false "1-5") None);
             ("fSize", NumpyForm [] 4 "i" [] None);
             ("refs", ListOffsetForm off (NumpyForm [] 4 "i" [] None) [] None) ]
           [("__record__", JStr "TRefArray")] None),
     c).
Proof.
  intros Hg Hoff. destruct c as [f i p t]. simpl in Hg, Hoff. subst f i.
  reflexivity.
Qed.

(** C5.  In bytecode mode a [TRefArray] build takes the six keys after the
    counter and no other: base+1 the record, base+2 and base+3 the list and
    the content of the name, base+4 the size, base+5 and base+6 the list and
    the content of the references.  The counter then stands six further, so
    a second build in the same context has the first one's base plus 6 as
    its base. *)
Theorem TRefArray_awkward_form_node_keys
    (c : Context) (g : ForthGenerator.t) (off : string) :
  forth c = Some g ->
  index_format c = Some off ->
  let base := ForthGenerator.get_last_key g in
  exists form c1 g1 form2 c2 g2,
    Model_TRefArray.awkward_form c = (Ok form, c1) /\ forth c1 = Some g1 /\
    form_keys form = map node_key [base + 1; base + 2; base + 3; base + 4; base + 5; base + 6] /\
    NoDup (form_keys form) /\
    form_key_of form = Some (node_key (base + 1)) /\
    field_key "fName" form = Some (node_key (base + 2)) /\
    content_key "fName" form = Some (node_key (base + 3)) /\
    field_key "fSize" form = Some (node_key (base + 4)) /\
    field_key "refs" form = Some (node_key (base + 5)) /\
    content_key "refs" form = Some (node_key (base + 6)) /\
    ForthGenerator.forth_keys g1
      = ForthGenerator.forth_keys g ++ [(Class_TRefArray, (base + 1, base + 6))] /\
    ForthGenerator.get_last_key g1 = base + 6 /\
    Model_TRefArray.awkward_form c1 = (Ok form2, c2) /\ forth c2 = Some g2 /\
    form_key_of form2 = Some (node_key ((base + 6) + 1)) /\
    form_keys form2
      = map node_key [(base + 6) + 1; (base + 6) + 2; (base + 6) + 3;
                      (base + 6) + 4; (base + 6) + 5; (base + 6) + 6] /\
    ForthGenerator.get_last_key g2 = (base + 6) + 6.
Proof.
  intros Hg Hoff base.
  pose proof (TRefArray_awkward_form_forth_run c g off Hg Hoff) as H1.
  cbv zeta in H1. fold base in H1.
  set (c1 := mk_Context (Some (built_TRefArray base g)) (Some off) None (tobject_header c)) in *.
  pose proof (TRefArray_awkward_form_forth_run c1 (built_TRefArray base g) off
                eq_refl eq_refl) as H2.
  cbv zeta in H2.
  change (ForthGenerator.get_last_key (built_TRefArray base g)) with (base + 6) in H2.
  eexists _, c1, (built_TRefArray base g), _, _, _.
  split; [exact H1|]. split; [reflexivity|].
  split; [reflexivity|].
  split.
  { cbn [form_keys flat_map app].
    repeat (constructor;
            [ cbn [In]; intros Hin;
              repeat match goal with
                     | H : _ \/ _ |- _ => destruct H
                     | H : node_key _ = node_key _ |- _ => apply node_key_inj in H; lia
                     | H : False |- _ => contradiction
                     end | ]).
    constructor. }
  do 8 (split; [reflexivity|]).
  split; [exact H2|].
  repeat split.
Qed.

Lemma TRefArray_awkward_form_node_keys_witness :
  exists form c1 form2 c2,
    Model_TRefArray.awkward_form forth_context = (Ok form, c1) /\
    form_key_of form = Some "node11" /\
    Model_TRefArray.awkward_form c1 = (Ok form2, c2) /\
    form_key_of form2 = Some "node17".
Proof.
  destruct (TRefArray_awkward_form_node_keys forth_context
              (ForthGenerator.mk 10 [] [] []) "i64" eq_refl eq_refl)
    as (form & c1 & g1 & form2 & c2 & g2 & H1 & _ & _ & _ & H5 & _ & _ & _ & _ & _ & _ & _
        & H13 & _ & H15 & _).
  exists form, c1, form2, c2.
  split; [exact H1|]. split; [exact H5|]. split; [exact H13 | exact H15].
Defined.

(** C6.  The bytecode-mode form of [TRefArray] without its node keys is the
    native form built in the same context without the generator, and both
    stand for the schema of the specification: the record of a string
    [fName], an int32 [fSize] and a list of int32 [refs]. *)
Theorem TRefArray_awkward_form_modes_agree
    (c : Context) (g : ForthGenerator.t) (off : string) :
  forth c = Some g ->
  index_format c = Some off ->
  exists bytecode native,
    fst (Model_TRefArray.awkward_form c) = Ok bytecode /\
    fst (Model_TRefArray.awkward_form (native_of c)) = Ok native /\
    strip_form_keys bytecode = native /\
    form_keys native = [] /\
    schema_of bytecode = schema_of native /\
    schema_of native = ArrayRef_schema /\
    field_names bytecode = field_names native.
Proof.
  intros Hg Hoff.
  pose proof (TRefArray_awkward_form_forth_run c g off Hg Hoff) as H1.
  pose proof (TRefArray_awkward_form_native_run (native_of c) off eq_refl Hoff) as H2.
  cbv zeta in H1. rewrite H1, H2.
  eexists _, _. split; [reflexivity|]. split; [reflexivity|].
  repeat split.
Qed.

Lemma TRefArray_awkward_form_modes_agree_witness :
  exists bytecode native,
    fst (Model_TRefArray.awkward_form forth_context) = Ok bytecode /\
    fst (Model_TRefArray.awkward_form (native_of forth_context)) = Ok native /\
    strip_form_keys bytecode = native.
Proof.
  destruct (TRefArray_awkward_form_modes_agree forth_context
              (ForthGenerator.mk 10 [] [] []) "i64" eq_refl eq_refl)
    as (b & n & H1 & H2 & H3 & _).
  exists b, n. split; [exact H1|]. split; [exact H2 | exact H3].
Defined.

(** C7.  The strided interpretation of [TRef] lists, in this order, [@pidf]
    as a 2-byte, [ref] as a 4-byte, [@other1] as a 2-byte and [@other2] as a
    4-byte unsigned integer, all big-endian; packed one after the other they
    fill the twelve bytes the decoder consumes, with [ref] on bytes 2 to 5. *)
Theorem TRef_strided_interpretation_members
    {O : Type} (header tobject_header : bool) (original : option O) :
  let interp := Model_TRef.strided_interpretation header tobject_header original in
  let members := strided_members interp in
  members = [ ("@pidf", numpy.mk_dtype numpy.big numpy.unsigned_int 2);
              ("ref", numpy.mk_dtype numpy.big numpy.unsigned_int 4);
              ("@other1", numpy.mk_dtype numpy.big numpy.unsigned_int 2);
              ("@other2", numpy.mk_dtype numpy.big numpy.unsigned_int 4) ] /\
  Forall (fun m => numpy.order (snd m) = numpy.big) members /\
  member_spans 0 members
    = [ ("@pidf", (0, 2)); ("ref", (2, 6)); ("@other1", (6, 8)); ("@other2", (8, 12)) ] /\
  members_size members = 12 /\
  members_size members = struct.size _tref_format1 /\
  strided_model interp = Class_TRef /\
  strided_original interp = original.
Proof.
  cbv zeta. split; [reflexivity|]. split.
  - repeat constructor.
  - repeat split.
Qed.

(** C8, as it stands, fails: a previous key the caller has set is not there
    after the build. *)
Lemma TRefArray_awkward_form_drops_prev_key :
  let out := Model_TRefArray.awkward_form nested_context in
  is_ok (fst out) = true /\
  prev_key nested_context = Some "node7" /\
  prev_key (snd out) = None /\
  prev_key (snd out) <> prev_key nested_context.
Proof.
  cbv zeta. repeat split. discriminate.
Qed.

(** C8, amended.  In bytecode mode the build of [TRefArray] ends by
    deleting the previous key: the context it leaves has none, whatever the
    caller had set, so a caller that had set none finds the previous-key
    state it left; the index format and the header flag are untouched. *)
Theorem TRefArray_awkward_form_clears_prev_key
    (c : Context) (g : ForthGenerator.t) (off : string) :
  forth c = Some g ->
  index_format c = Some off ->
  let out := Model_TRefArray.awkward_form c in
  is_ok (fst out) = true /\
  prev_key (snd out) = None /\
  (prev_key c = None -> prev_key (snd out) = prev_key c) /\
  index_format (snd out) = index_format c /\
  tobject_header (snd out) = tobject_header c.
Proof.
  intros Hg Hoff out. unfold out.
  pose proof (TRefArray_awkward_form_forth_run c g off Hg Hoff) as H1.
  cbv zeta in H1. rewrite H1. cbn [fst snd is_ok prev_key index_format tobject_header].
  split; [reflexivity|]. split; [reflexivity|]. split; [|split].
  - intros Hn. now rewrite Hn.
  - now rewrite Hoff.
  - reflexivity.
Qed.

Lemma TRefArray_awkward_form_clears_prev_key_witness :
  prev_key (snd (Model_TRefArray.awkward_form forth_context)) = None /\
  prev_key (snd (Model_TRefArray.awkward_form forth_context)) = prev_key forth_context.
Proof.
  destruct (TRefArray_awkward_form_clears_prev_key forth_context
              (ForthGenerator.mk 10 [] [] []) "i64" eq_refl eq_refl)
    as (_ & H2 & H3 & _).
  split; [exact H2 | exact (H3 eq_refl)].
Defined.

(** C9, as it stands, fails: without the header flag the record of [TRef]
    has no field. *)
Lemma TRef_awkward_form_without_header :
  let out := Model_TRef.awkward_form headerless_context in
  exists form,
    fst out = Ok form /\
    schema_of form = Record_ "TRef" [] /\
    schema_of form <> Record_ "TRef" four_scalar_fields.
Proof.
  cbv zeta. eexists. split; [reflexivity|]. split; [reflexivity|]. discriminate.
Qed.

(** A lookup by a name that is not known: one case per key of the
    dictionary, each settled by computing. *)
Ltac by_name name :=
  repeat (match goal with
          | |- context [String.eqb name ?k] =>
              destruct (String.eqb_spec name k) as [->|]
          end; cbn);
  try reflexivity.

(** C9, amended.  The form of [TRef] is a record named after the class.
    When the context's header flag is set it has four fields, and the field
    of each name of the strided layout is the scalar of that member's item
    type: [@pidf] and [@other1] 2-byte, [ref] and [@other2] 4-byte unsigned
    integers; when the flag is not set it has no fields.  The fields are
    told by their names, not by their order.  The build leaves the context
    as it was and gives no node key. *)
Theorem TRef_awkward_form_by_header_flag (c : Context) (flag : bool) :
  tobject_header c = Some flag ->
  exists form,
    Model_TRef.awkward_form c = (Ok form, c) /\
    form_keys form = [] /\
    record_name_of form = Some "TRef" /\
    (if flag
     then List.length (field_names form) = 4%nat /\
          NoDup (field_names form) /\
          forall name,
            option_map schema_of (field_of name form)
            = dict_get String.eqb name four_scalar_fields
     else field_names form = []) /\
    (forall name,
       dict_get String.eqb name four_scalar_fields
       = option_map scalar_of
           (dict_get String.eqb name
              (strided_members
                 (Model_TRef.strided_interpretation (O := unit) false true None)))).
Proof.
  intros Hf. destruct c as [f i p t]. simpl in Hf. subst t.
  assert (Hmirror : forall name,
    dict_get String.eqb name four_scalar_fields
    = option_map scalar_of
        (dict_get String.eqb name
           (strided_members
              (Model_TRef.strided_interpretation (O := unit) false true None)))).
  { intros name. cbn. by_name name. }
  destruct flag; eexists; (split; [reflexivity|]);
    (split; [reflexivity|]); (split; [reflexivity|]); (split; [|exact Hmirror]).
  - split; [reflexivity|]. split.
    + cbn. repeat (constructor; [cbn; intuition discriminate|]). constructor.
    + intros name. cbn. by_name name.
  - reflexivity.
Qed.

Lemma TRef_awkward_form_by_header_flag_witness :
  exists form,
    Model_TRef.awkward_form plain_context = (Ok form, plain_context) /\
    List.length (field_names form) = 4%nat /\
    option_map schema_of (field_of "ref" form) = Some (Scalar 4 "I") /\
    option_map schema_of (field_of "@pidf" form) = Some (Scalar 2 "H").
Proof.
  destruct (TRef_awkward_form_by_header_flag plain_context true eq_refl)
    as (form & H1 & _ & _ & (H4 & _ & H6) & _).
  exists form. split; [exact H1|]. split; [exact H4|].
  split; [exact (H6 "ref") | exact (H6 "@pidf")].
Defined.

(* ================================================================== *)
(** * Further properties *)

(** ** The reader at the bounds of a chunk *)

Lemma Chunk_get_bounds (chunk : Chunk.t) (start stop : Z) :
  (exists bs, Chunk.get chunk start stop = Some bs) <->
  0 <= start /\ stop <= Z.of_nat (List.length chunk).
Proof.
  unfold Chunk.get.
  destruct (Z.leb_spec 0 start); destruct (Z.leb_spec stop (Z.of_nat (List.length chunk)));
    simpl; split; intros H1; try lia; try (destruct H1 as [? H1]; discriminate);
    eexists; reflexivity.
Qed.

Lemma Chunk_get_length (chunk : Chunk.t) (start stop : Z) (bs : list byte) :
  Chunk.get chunk start stop = Some bs ->
  start <= stop ->
  Z.of_nat (List.length bs) = stop - start.
Proof.
  unfold Chunk.get.
  destruct (Z.leb_spec 0 start); [|discriminate].
  destruct (Z.leb_spec stop (Z.of_nat (List.length chunk))); [|discriminate].
  simpl. intros [= <-] Hle.
  rewrite length_firstn, length_skipn. lia.
Qed.

Lemma Cursor_take_ok (chunk : Chunk.t) (n i : Z) (bs : list byte) (c : Z) :
  Cursor.take chunk n i = (Ok bs, c) ->
  c = i + n /\ 0 <= i /\ i + n <= Z.of_nat (List.length chunk) /\
  (0 <= n -> Z.of_nat (List.length bs) = n).
Proof.
  unfold Cursor.take. destruct (Chunk.get chunk i (i + n)) as [bs'|] eqn:E; [|discriminate].
  intros [= <- <-].
  assert (Hb : 0 <= i /\ i + n <= Z.of_nat (List.length chunk)).
  { apply Chunk_get_bounds. eauto. }
  repeat split; try lia.
  intros Hn. rewrite (Chunk_get_length _ _ _ _ E); lia.
Qed.

Lemma Cursor_take_raise (chunk : Chunk.t) (n i : Z) (e : exn) (c : Z) :
  Cursor.take chunk n i = (Raise e, c) ->
  e = TruncatedInput /\ c = i /\ ~ (0 <= i /\ i + n <= Z.of_nat (List.length chunk)).
Proof.
  unfold Cursor.take. destruct (Chunk.get chunk i (i + n)) as [bs'|] eqn:E; [discriminate|].
  intros [= <- <-]. repeat split.
  intros Hb. apply Chunk_get_bounds in Hb. destruct Hb as [bs Hbs]. congruence.
Qed.

(** A field of the format of [TRef] is read exactly when its twelve bytes
    lie in the chunk; it is then an unsigned 32-bit integer. *)
Lemma Cursor_field_tref (chunk : Chunk.t) (i : Z) :
  (0 <= i /\ i + 12 <= Z.of_nat (List.length chunk) /\
   exists v, Cursor.field chunk _tref_format1 i = (Ok v, i + 12) /\ 0 <= v < 2 ^ 32) \/
  (~ (0 <= i /\ i + 12 <= Z.of_nat (List.length chunk)) /\
   Cursor.field chunk _tref_format1 i = (Raise TruncatedInput, i)).
Proof.
  unfold Cursor.field, bind.
  change (struct.size _tref_format1) with 12.
  destruct (Cursor.take chunk 12 i) as [[bs|e] c] eqn:E.
  - apply Cursor_take_ok in E. destruct E as (-> & H0 & H1 & Hlen).
    specialize (Hlen ltac:(lia)).
    left. split; [exact H0|]. split; [exact H1|].
    do 13 (destruct bs as [|? bs]; try (simpl in Hlen; lia)).
    eexists. split; [reflexivity|]. apply be_unsigned_4_range.
  - apply Cursor_take_raise in E. destruct E as (-> & -> & Hn).
    right. split; [exact Hn | reflexivity].
Qed.

(** ** [Model_TRef] *)

(** The decoder of [TRef] in its three outcomes. *)
Lemma TRef_read_members_cases (chunk : Chunk.t) (w : World Model_TRef.t) :
  Model_TRef.read_members chunk w
  = if Model_TRef.is_memberwise (self w)
    then (Raise (NotImplementedError
                   (memberwise_message "Model_TRef" (Model_TRef.file_path (self w)))), w)
    else
      match Cursor.field chunk _tref_format1 (cursor w) with
      | (Ok r, c) =>
          (Ok tt, mk_World (Model_TRef.mk false (Model_TRef.file_path (self w)) (Some r))
                           c (context w))
      | (Raise e, c) => (Raise e, mk_World (self w) c (context w))
      end.
Proof.
  unfold Model_TRef.read_members. rewrite bind_run. unfold get at 1.
  destruct (Model_TRef.is_memberwise (self w)) eqn:Hm; [reflexivity|].
  rewrite bind_run. unfold on_cursor, zoom.
  destruct (Cursor.field chunk _tref_format1 (cursor w)) as [[r|e] c]; [|reflexivity].
  unfold on_self, modify. cbn [self cursor context]. now rewrite Hm.
Qed.

(** X1.  The decoder of [TRef] is all or nothing: when it raises, the
    object is as it was, and so is the context in every case; when it
    returns, the cursor stands twelve bytes further, inside the chunk, and
    [ref] is an integer from 0 up to 2^32 - 1. *)
Theorem TRef_read_members_all_or_nothing (chunk : Chunk.t) (w : World Model_TRef.t) :
  let out := Model_TRef.read_members chunk w in
  context (snd out) = context w /\
  (forall e, fst out = Raise e -> self (snd out) = self w) /\
  (fst out = Ok tt ->
   cursor (snd out) = cursor w + 12 /\
   0 <= cursor w /\ cursor (snd out) <= Z.of_nat (List.length chunk) /\
   exists v, Model_TRef.ref (self (snd out)) = Ok v /\ 0 <= v < 2 ^ 32).
Proof.
  intros out. subst out. rewrite TRef_read_members_cases.
  destruct (Model_TRef.is_memberwise (self w)).
  - cbn [fst snd]. split; [reflexivity|]. split; [reflexivity|]. discriminate.
  - destruct (Cursor_field_tref chunk (cursor w)) as [(H0 & H1 & v & Hv & Hr)|(Hn & Hv)];
      rewrite Hv; cbn [fst snd self cursor context].
    + split; [reflexivity|]. split; [discriminate|]. intros _.
      repeat split; try lia. exists v. split; [reflexivity | exact Hr].
    + split; [reflexivity|]. split; [reflexivity|]. discriminate.
Qed.

(** X2.  The decoder of [TRef] returns exactly when the record is not
    memberwise and twelve bytes lie in the chunk at the cursor; a record
    that is not memberwise with fewer bytes ends in TruncatedInput. *)
Theorem TRef_read_members_returns_iff (chunk : Chunk.t) (w : World Model_TRef.t) :
  let out := Model_TRef.read_members chunk w in
  let enough := 0 <= cursor w /\ cursor w + 12 <= Z.of_nat (List.length chunk) in
  (fst out = Ok tt <-> Model_TRef.is_memberwise (self w) = false /\ enough) /\
  (Model_TRef.is_memberwise (self w) = false -> ~ enough -> fst out = Raise TruncatedInput).
Proof.
  intros out enough. subst out enough. rewrite TRef_read_members_cases.
  destruct (Model_TRef.is_memberwise (self w)).
  - cbn [fst]. split; [split; [discriminate | intros [? _]; discriminate] | discriminate].
  - destruct (Cursor_field_tref chunk (cursor w)) as [(H0 & H1 & v & Hv & Hr)|(Hn & Hv)];
      rewrite Hv; cbn [fst].
    + split; [split; auto | intros _ Hn; exfalso; apply Hn; auto].
    + split; [split; [discriminate | intros [_ He]; contradiction] | reflexivity].
Qed.

Lemma TRef_read_members_returns_iff_witness :
  fst (Model_TRef.read_members [x00; x00; x00]
         (mk_World (Model_TRef.mk false "file.root" None) 0 plain_context))
  = Raise TruncatedInput.
Proof.
  apply (TRef_read_members_returns_iff [x00; x00; x00]
           (mk_World (Model_TRef.mk false "file.root" None) 0 plain_context)).
  - reflexivity.
  - cbn. lia.
Defined.

Lemma TRef_read_members_all_or_nothing_witness :
  let out := Model_TRef.read_members
               [x00; x00; x00; x00; x00; x01; x00; x00; x00; x00; x00; x00]
               (mk_World (Model_TRef.mk false "file.root" None) 0 plain_context) in
  cursor (snd out) = 0 + 12 /\
  exists v, Model_TRef.ref (self (snd out)) = Ok v /\ 0 <= v < 2 ^ 32.
Proof.
  intros out.
  destruct (TRef_read_members_all_or_nothing
              [x00; x00; x00; x00; x00; x01; x00; x00; x00; x00; x00; x00]
              (mk_World (Model_TRef.mk false "file.root" None) 0 plain_context))
    as (_ & _ & H).
  destruct (H eq_refl) as (H1 & _ & _ & H4).
  split; [exact H1 | exact H4].
Defined.

(** X3.  The two readings of a [TRef] record agree: the member [ref] of the
    strided interpretation, taken from the twelve bytes of a record, is the
    reference number the decoder reads from them, wherever the record lies
    in the chunk. *)
Theorem TRef_strided_ref_is_decoded_ref
    {O : Type} (header tobject_header : bool) (original : option O)
    (pre post record : list byte) (s : Model_TRef.t) (ctx : Context) :
  Model_TRef.is_memberwise s = false ->
  List.length record = 12%nat ->
  let out := Model_TRef.read_members (pre ++ record ++ post)
               (mk_World s (Z.of_nat (List.length pre)) ctx) in
  let interp := Model_TRef.strided_interpretation header tobject_header original in
  exists v,
    strided_field interp "ref" record = Some v /\
    fst out = Ok tt /\
    Model_TRef.ref (self (snd out)) = Ok v.
Proof.
  intros Hm Hlen out interp.
  do 13 (destruct record as [|? record]; try discriminate Hlen).
  exists (be_unsigned [b1; b2; b3; b4]).
  split; [reflexivity|].
  subst out. rewrite TRef_read_members_cases. cbn [self cursor context]. rewrite Hm.
  rewrite (Cursor_field_app _ pre [b; b0; b1; b2; b3; b4; b5; b6; b7; b8; b9; b10] post
             _tref_format1 _ (be_unsigned [b1; b2; b3; b4]) []
             eq_refl eq_refl eq_refl eq_refl).
  split; reflexivity.
Qed.

Lemma TRef_strided_ref_is_decoded_ref_witness :
  let record := [x00; x00; x00; x00; x00; x01; x00; x00; x00; x00; x00; x00] in
  exists v,
    strided_field (Model_TRef.strided_interpretation (O := unit) false true None)
                  "ref" record = Some v /\
    Model_TRef.ref (self (snd (Model_TRef.read_members ([] ++ record ++ [])
                     (mk_World (Model_TRef.mk false "file.root" None) 0 plain_context))))
    = Ok v.
Proof.
  intros record.
  destruct (TRef_strided_ref_is_decoded_ref (O := unit) false true None [] []
              record (Model_TRef.mk false "file.root" None) plain_context
              eq_refl eq_refl) as (v & H1 & _ & H3).
  exists v. split; [exact H1 | exact H3].
Defined.

(** ** The text of a [TRef] *)

Lemma append_right_inj (s1 s2 t : string) :
  String.length t = 1%nat ->
  (s1 ++ t)%string = (s2 ++ t)%string -> s1 = s2.
Proof.
  intros Ht. revert s2.
  destruct t as [|c [|? ?]]; try discriminate Ht. clear Ht.
  induction s1 as [|a s1 IH]; intros [|b s2] H; simpl in H.
  - reflexivity.
  - injection H as _ H. destruct s2; discriminate H.
  - injection H as _ H. destruct s1; discriminate H.
  - injection H as -> H. f_equal. now apply IH.
Qed.

(** X4.  The text of a decoded [TRef] names its reference number: it is
    [<TRef n>] with [n] in decimal, and two objects with the same text hold
    the same number. *)
Theorem TRef_repr_tells_ref (a b : Model_TRef.t) (ra rb : Z) :
  Model_TRef.ref a = Ok ra ->
  Model_TRef.ref b = Ok rb ->
  Model_TRef.__repr__ a = Ok ("<TRef " ++ str_of_int ra ++ ">")%string /\
  (Model_TRef.__repr__ a = Model_TRef.__repr__ b -> ra = rb).
Proof.
  unfold Model_TRef.ref, Model_TRef.__repr__.
  destruct (Model_TRef._ref a) as [x|]; [|discriminate].
  destruct (Model_TRef._ref b) as [y|]; [|discriminate].
  intros [= ->] [= ->]. split; [reflexivity|].
  intros [= H]. apply str_of_int_inj.
  apply (append_right_inj _ _ ">"); auto.
Qed.

Lemma TRef_repr_tells_ref_witness :
  Model_TRef.__repr__ (Model_TRef.mk false "file.root" (Some 7)) = Ok "<TRef 7>".
Proof.
  exact (proj1 (TRef_repr_tells_ref (Model_TRef.mk false "file.root" (Some 7))
                  (Model_TRef.mk false "file.root" (Some 7)) 7 7 eq_refl eq_refl)).
Defined.

(** ** [Model_TRefArray] *)

(** The decoder of [TRefArray] in its five outcomes. *)
Lemma TRefArray_read_members_cases (chunk : Chunk.t) (w : World Model_TRefArray.t) :
  Model_TRefArray.read_members chunk w
  = let s := self w in
    let ctx := traversed (context w) in
    if Model_TRefArray.is_memberwise s
    then (Raise (NotImplementedError
                   (memberwise_message "Model_TRefArray" (Model_TRefArray.file_path s))),
          mk_World s (cursor w) ctx)
    else
      match Cursor.string chunk (cursor w + 10) with
      | (Raise e, c1) => (Raise e, mk_World s c1 ctx)
      | (Ok n, c1) =>
          match Cursor.field chunk _trefarray_format1 c1 with
          | (Raise e, c2) => (Raise e, mk_World (Model_TRefArray.set_fName n s) c2 ctx)
          | (Ok sz, c2) =>
              let s2 := Model_TRefArray.set_fSize sz (Model_TRefArray.set_fName n s) in
              match Cursor.array chunk sz _trefarray_dtype (c2 + 6) with
              | (Raise e, c3) => (Raise e, mk_World s2 c3 ctx)
              | (Ok d, c3) => (Ok tt, mk_World (Model_TRefArray.set_data d s2) c3 ctx)
              end
          end
      end.
Proof.
  destruct w as [s i ctx]. cbn [self cursor context]. cbv zeta.
  unfold Model_TRefArray.read_members. rewrite bind_run. unfold get at 1.
  cbn [self cursor context].
  assert (Hfirst :
    (match forth ctx with
     | Some _ => on_context (on_forth ForthGenerator.traverse_aform)
     | None => ret tt
     end) (mk_World s i ctx) = (Ok tt, mk_World s i (traversed ctx))).
  { unfold traversed. destruct (forth ctx) as [g|] eqn:Hg.
    - unfold on_context, zoom. cbn [self cursor context].
      now rewrite (on_forth_run _ ctx g Hg).
    - reflexivity. }
  rewrite bind_run, Hfirst.
  destruct (Model_TRefArray.is_memberwise s) eqn:Hm; [reflexivity|].
  rewrite bind_run. unfold on_cursor at 1, zoom, Cursor.skip at 1, modify.
  cbn [self cursor context].
  rewrite bind_run. unfold on_cursor at 1, zoom. cbn [self cursor context].
  destruct (Cursor.string chunk (i + 10)) as [[n|e] c1]; [|reflexivity].
  rewrite bind_run. unfold on_self at 1, modify. cbn [self cursor context].
  rewrite bind_run. unfold on_cursor at 1, zoom. cbn [self cursor context].
  destruct (Cursor.field chunk _trefarray_format1 c1) as [[sz|e] c2]; [|reflexivity].
  rewrite bind_run. unfold on_self at 1, modify. cbn [self cursor context].
  rewrite bind_run. unfold on_cursor at 1, zoom, Cursor.skip, modify.
  cbn [self cursor context].
  rewrite bind_run. unfold get at 1. cbn [self cursor context].
  rewrite bind_run. unfold getitem.
  cbn [Model_TRefArray.set_fSize Model_TRefArray._members Model_TRefArray.fSize].
  unfold ret at 1.
  rewrite bind_run. unfold on_cursor at 1, zoom. cbn [self cursor context].
  destruct (Cursor.array chunk sz _trefarray_dtype (c2 + 6)) as [[d|e] c3]; reflexivity.
Qed.

(** A size field that is read lies in the chunk, and the cursor is four
    bytes behind where it began. *)
Lemma Cursor_field_trefarray_ok (chunk : Chunk.t) (i c sz : Z) :
  Cursor.field chunk _trefarray_format1 i = (Ok sz, c) -> 0 <= i /\ c = i + 4.
Proof.
  unfold Cursor.field. rewrite bind_run.
  change (struct.size _trefarray_format1) with 4.
  destruct (Cursor.take chunk 4 i) as [[bs|e] c0] eqn:E0; [|discriminate].
  apply Cursor_take_ok in E0. destruct E0 as (-> & H0 & _).
  destruct (struct.unpack _trefarray_format1 bs) as [[|v vs]|]; try discriminate.
  intros [= _ <-]. split; [exact H0 | reflexivity].
Qed.

Lemma frombuffer_fuel_length (d : numpy.dtype) (fuel : nat) :
  forall (bs : list byte) (items : list Z),
    numpy.frombuffer_fuel fuel d bs = Some items ->
    List.length bs = (List.length items * Z.to_nat (numpy.itemsize d))%nat.
Proof.
  induction fuel as [|fuel IH]; intros bs items H.
  - destruct bs; [|discriminate]. now injection H as <-.
  - destruct bs as [|b bs]; [now injection H as <-|].
    cbn [numpy.frombuffer_fuel] in H.
    destruct (Nat.ltb_spec (List.length (b :: bs)) (Z.to_nat (numpy.itemsize d)))
      as [|Hge]; [discriminate|].
    destruct (numpy.frombuffer_fuel fuel d (skipn (Z.to_nat (numpy.itemsize d)) (b :: bs)))
      as [rest|] eqn:E; [|discriminate].
    injection H as <-. apply IH in E. rewrite length_skipn in E.
    cbn [List.length] in *. lia.
Qed.

(** An array of a non-negative count that is read has that many items and
    ends in the chunk. *)
Lemma Cursor_array_ok (chunk : Chunk.t) (len : Z) (d : numpy.dtype) (i c : Z)
      (items : list Z) :
  Cursor.array chunk len d i = (Ok items, c) ->
  0 <= len -> 0 < numpy.itemsize d ->
  c = i + len * numpy.itemsize d /\
  Z.of_nat (List.length items) = len /\
  c <= Z.of_nat (List.length chunk).
Proof.
  unfold Cursor.array. rewrite bind_run. intros H Hlen Hd.
  destruct (Cursor.take chunk (len * numpy.itemsize d) i) as [[bs|e] c0] eqn:E0;
    [|discriminate].
  apply Cursor_take_ok in E0. destruct E0 as (-> & _ & Hend & Hbs).
  specialize (Hbs ltac:(nia)).
  destruct (numpy.frombuffer d bs) as [its|] eqn:E; [|discriminate].
  injection H as -> <-.
  apply frombuffer_fuel_length in E.
  repeat split; try lia. nia.
Qed.

(** X5.  What a decode of [TRefArray] leaves in the object: the memberwise
    flag and the file are never changed; the references are set by a decode
    that returns and by no other; and after a decode that returns the name,
    the size and the references are all there, with the length and the byte
    count of the object those of the references. *)
Theorem TRefArray_read_members_populates (chunk : Chunk.t) (w : World Model_TRefArray.t) :
  let out := Model_TRefArray.read_members chunk w in
  let a := self (snd out) in
  Model_TRefArray.is_memberwise a = Model_TRefArray.is_memberwise (self w) /\
  Model_TRefArray.file_path a = Model_TRefArray.file_path (self w) /\
  (forall e, fst out = Raise e ->
     Model_TRefArray._data a = Model_TRefArray._data (self w)) /\
  (fst out = Ok tt ->
     exists n sz d,
       Model_TRefArray.name a = Ok n /\
       Model_TRefArray.fSize (Model_TRefArray._members a) = Some sz /\
       Model_TRefArray.refs a = Ok d /\
       Model_TRefArray.__len__ a = Ok (Z.of_nat (List.length d)) /\
       Model_TRefArray.nbytes a = Ok (4 * Z.of_nat (List.length d))).
Proof.
  intros out a. subst a out. rewrite TRefArray_read_members_cases. cbv zeta.
  destruct (Model_TRefArray.is_memberwise (self w)) eqn:Hm.
  { cbn [fst snd self].
    split; [first [reflexivity | exact Hm]|]. split; [reflexivity|]. split; [reflexivity | discriminate]. }
  destruct (Cursor.string chunk (cursor w + 10)) as [[n|e] c1].
  2:{ cbn [fst snd self].
      split; [first [reflexivity | exact Hm]|]. split; [reflexivity|]. split; [reflexivity | discriminate]. }
  destruct (Cursor.field chunk _trefarray_format1 c1) as [[sz|e] c2].
  2:{ cbn [fst snd self]. unfold Model_TRefArray.set_fName.
      cbn [Model_TRefArray.is_memberwise Model_TRefArray.file_path Model_TRefArray._data].
      split; [first [reflexivity | exact Hm]|]. split; [reflexivity|]. split; [reflexivity | discriminate]. }
  destruct (Cursor.array chunk sz _trefarray_dtype (c2 + 6)) as [[d|e] c3];
    cbn [fst snd self];
    unfold Model_TRefArray.set_data, Model_TRefArray.set_fSize, Model_TRefArray.set_fName;
    cbn [Model_TRefArray.is_memberwise Model_TRefArray.file_path Model_TRefArray._data
         Model_TRefArray._members Model_TRefArray.fName Model_TRefArray.fSize].
  - split; [first [reflexivity | exact Hm]|]. split; [reflexivity|]. split; [discriminate|].
    intros _. exists n, sz, d.
    unfold Model_TRefArray.name, Model_TRefArray.refs, Model_TRefArray.__len__,
      Model_TRefArray.nbytes, Model_TRefArray.attr.
    cbn [Model_TRefArray._data Model_TRefArray._members Model_TRefArray.fName].
    do 4 (split; [reflexivity|]). f_equal. simpl numpy.itemsize. lia.
  - split; [first [reflexivity | exact Hm]|]. split; [reflexivity|]. split; [reflexivity | discriminate].
Qed.

Lemma TRefArray_read_members_populates_witness :
  let out := Model_TRefArray.read_members (wire_bytes example_wire)
               (mk_World fresh_TRefArray 0 plain_context) in
  exists n sz d,
    Model_TRefArray.name (self (snd out)) = Ok n /\
    Model_TRefArray.fSize (Model_TRefArray._members (self (snd out))) = Some sz /\
    Model_TRefArray.refs (self (snd out)) = Ok d.
Proof.
  intros out.
  destruct (TRefArray_read_members_populates (wire_bytes example_wire)
              (mk_World fresh_TRefArray 0 plain_context)) as (_ & _ & _ & H).
  destruct (H eq_refl) as (n & sz & d & H1 & H2 & H3 & _).
  exists n, sz, d. split; [exact H1|]. split; [exact H2 | exact H3].
Defined.

(** X6.  Whatever the chunk holds, a decode of [TRefArray] that returns with
    a size that is not negative has read exactly that many references, of
    four bytes each; the cursor stands inside the chunk, behind the
    references and the ten bytes of the size and the reserved field before
    them, which all lie in the chunk.  Nothing is said of where the name
    lies. *)
Theorem TRefArray_read_members_size_is_count
    (chunk : Chunk.t) (w w' : World Model_TRefArray.t) (sz : Z) :
  Model_TRefArray.read_members chunk w = (Ok tt, w') ->
  Model_TRefArray.fSize (Model_TRefArray._members (self w')) = Some sz ->
  0 <= sz ->
  exists d,
    Model_TRefArray.refs (self w') = Ok d /\
    Z.of_nat (List.length d) = sz /\
    Model_TRefArray.__len__ (self w') = Ok sz /\
    Model_TRefArray.nbytes (self w') = Ok (4 * sz) /\
    0 <= cursor w' - 4 * sz - 10 /\
    cursor w' <= Z.of_nat (List.length chunk).
Proof.
  rewrite TRefArray_read_members_cases. cbv zeta.
  destruct (Model_TRefArray.is_memberwise (self w)); [discriminate|].
  destruct (Cursor.string chunk (cursor w + 10)) as [[n|e] c1] eqn:Es; [|discriminate].
  destruct (Cursor.field chunk _trefarray_format1 c1) as [[sz'|e] c2] eqn:Ef; [|discriminate].
  destruct (Cursor.array chunk sz' _trefarray_dtype (c2 + 6)) as [[d|e] c3] eqn:Ea;
    [|discriminate].
  intros [= <-]. cbn [self cursor].
  unfold Model_TRefArray.set_data, Model_TRefArray.set_fSize, Model_TRefArray.set_fName.
  cbn [Model_TRefArray._members Model_TRefArray.fSize].
  intros [= ->] Hsz.
  apply Cursor_field_trefarray_ok in Ef. destruct Ef as (Hc1 & Hc2).
  apply Cursor_array_ok in Ea; [|exact Hsz|reflexivity].
  destruct Ea as (Hc3 & Hlen & Hend). simpl numpy.itemsize in Hc3.
  exists d.
  unfold Model_TRefArray.refs, Model_TRefArray.__len__, Model_TRefArray.nbytes,
    Model_TRefArray.attr. cbn [Model_TRefArray._data].
  rewrite Hlen. simpl numpy.itemsize.
  split; [reflexivity|]. split; [reflexivity|]. split; [reflexivity|].
  split; [f_equal; lia|]. lia.
Qed.

Lemma TRefArray_read_members_size_is_count_witness :
  let out := Model_TRefArray.read_members (wire_bytes example_wire)
               (mk_World fresh_TRefArray 0 plain_context) in
  exists d, Model_TRefArray.refs (self (snd out)) = Ok d /\ Z.of_nat (List.length d) = 3.
Proof.
  intros out.
  destruct (TRefArray_read_members_size_is_count (wire_bytes example_wire)
              (mk_World fresh_TRefArray 0 plain_context) (snd out) 3
              eq_refl eq_refl ltac:(lia)) as (d & H1 & H2 & _).
  exists d. split; [exact H1 | exact H2].
Defined.


Lemma truncated_wire_prefix : wellformed_prefix truncated_wire.
Proof.
  unfold wellformed_prefix. cbn. repeat split; try reflexivity; discriminate.
Defined.

(** X8.  A [TRefArray] stream cut short inside its references, so that the
    chunk ends before the four bytes per declared reference are there, ends
    in TruncatedInput; the object then holds the name and the size that
    were read, and its references are what they were before. *)
Theorem TRefArray_read_members_truncated_refs
    (pre : list byte) (r : ArrayRef_wire) (s : Model_TRefArray.t) (ctx : Context) :
  Model_TRefArray.is_memberwise s = false ->
  wellformed_prefix r ->
  Z.of_nat (List.length (wire_refs r)) < 4 * declared_size r ->
  let chunk := pre ++ wire_bytes r in
  let out := Model_TRefArray.read_members chunk (mk_World s (Z.of_nat (List.length pre)) ctx) in
  fst out = Raise TruncatedInput /\
  Model_TRefArray.name (self (snd out)) = Ok (wire_name r) /\
  Model_TRefArray.fSize (Model_TRefArray._members (self (snd out))) = Some (declared_size r) /\
  Model_TRefArray._data (self (snd out)) = Model_TRefArray._data s.
Proof.
  intros Hm Hpre Hshort chunk out.
  destruct (wire_prefix_reads pre [] r Hpre) as (Hstr & Hfld & before & Hc & Hb).
  rewrite !app_nil_r in *. fold chunk in Hstr, Hfld, Hc.
  set (start := Z.of_nat (List.length pre)) in *.
  assert (Harr : Cursor.array chunk (declared_size r) _trefarray_dtype
                   (start + 10 + name_byte_length r + 4 + 6)
                 = (Raise TruncatedInput, start + 10 + name_byte_length r + 4 + 6)).
  { unfold Cursor.array. rewrite bind_run. unfold Cursor.take.
    destruct (Chunk.get chunk (start + 10 + name_byte_length r + 4 + 6)
                (start + 10 + name_byte_length r + 4 + 6
                 + declared_size r * numpy.itemsize _trefarray_dtype)) as [bs|] eqn:E;
      [|reflexivity].
    exfalso.
    assert (Hex : exists bs, Chunk.get chunk (start + 10 + name_byte_length r + 4 + 6)
                (start + 10 + name_byte_length r + 4 + 6
                 + declared_size r * numpy.itemsize _trefarray_dtype) = Some bs) by eauto.
    apply Chunk_get_bounds in Hex. destruct Hex as [_ Hend].
    rewrite Hc, length_app in Hend. simpl numpy.itemsize in Hend. lia. }
  subst out. rewrite TRefArray_read_members_cases. cbv zeta. cbn [self cursor context].
  rewrite Hm, Hstr, Hfld, Harr. cbn [fst snd self].
  unfold Model_TRefArray.name, Model_TRefArray.set_fSize, Model_TRefArray.set_fName.
  cbn [Model_TRefArray._members Model_TRefArray.fName Model_TRefArray.fSize
       Model_TRefArray._data].
  repeat split.
Qed.

Lemma TRefArray_read_members_truncated_refs_witness :
  let out := Model_TRefArray.read_members (wire_bytes truncated_wire)
               (mk_World fresh_TRefArray 0 plain_context) in
  fst out = Raise TruncatedInput /\
  Model_TRefArray._data (self (snd out)) = None.
Proof.
  intros out.
  destruct (TRefArray_read_members_truncated_refs [] truncated_wire fresh_TRefArray
              plain_context eq_refl truncated_wire_prefix ltac:(cbn; lia))
    as (H1 & _ & _ & H4).
  split; [exact H1 | exact H4].
Defined.

(** ** The sequence protocol of a decoded [TRefArray] *)

Lemma ndarray_getitem_spec (a : list Z) (i : Z) :
  let n := Z.of_nat (List.length a) in
  (0 <= i < n -> ndarray_getitem a i = Ok (nth (Z.to_nat i) a 0)) /\
  (- n <= i < 0 -> ndarray_getitem a i = Ok (nth (Z.to_nat (i + n)) a 0)) /\
  (n <= i \/ i < - n -> ndarray_getitem a i = Raise IndexError).
Proof.
  intros n. unfold ndarray_getitem. fold n.
  assert (Hnth : forall j, 0 <= j < n ->
            nth_error a (Z.to_nat j) = Some (nth (Z.to_nat j) a 0)).
  { intros j Hj. apply nth_error_nth'. lia. }
  split; [|split]; intros Hi.
  - destruct (Z.ltb_spec i 0); [lia|].
    destruct (Z.leb_spec 0 i); [|lia]. destruct (Z.ltb_spec i n); [|lia].
    simpl. now rewrite Hnth.
  - destruct (Z.ltb_spec i 0); [|lia].
    destruct (Z.leb_spec 0 (i + n)); [|lia]. destruct (Z.ltb_spec (i + n) n); [|lia].
    simpl. now rewrite Hnth by lia.
  - destruct (Z.ltb_spec i 0).
    + destruct (Z.leb_spec 0 (i + n)); [|reflexivity].
      destruct (Z.ltb_spec (i + n) n); [lia|reflexivity].
    + destruct (Z.leb_spec 0 i); [|reflexivity].
      destruct (Z.ltb_spec i n); [lia|reflexivity].
Qed.

(** X9.  Indexing a decoded [TRefArray] at its bounds: an index from
    [-len] up to [-1] counts from the end, so [a[-1]] is the last
    reference, and an index at or above [len], or below [-len], raises
    IndexError. *)
Theorem TRefArray_getitem_bounds
    (chunk : Chunk.t) (w w' : World Model_TRefArray.t) (i : Z) :
  Model_TRefArray.read_members chunk w = (Ok tt, w') ->
  exists refs,
    Model_TRefArray.refs (self w') = Ok refs /\
    let n := Z.of_nat (List.length refs) in
    (- n <= i < 0 ->
       Model_TRefArray.__getitem__ (self w') i = Ok (nth (Z.to_nat (i + n)) refs 0) /\
       Model_TRefArray.__getitem__ (self w') i = Model_TRefArray.__getitem__ (self w') (i + n)) /\
    (n <= i \/ i < - n -> Model_TRefArray.__getitem__ (self w') i = Raise IndexError).
Proof.
  intros H.
  destruct (TRefArray_read_members_sets_data chunk w w' H) as (d & Hd).
  exists d.
  unfold Model_TRefArray.refs, Model_TRefArray.__getitem__, Model_TRefArray.attr.
  rewrite Hd. split; [reflexivity|]. cbv zeta. set (n := Z.of_nat (List.length d)).
  destruct (ndarray_getitem_spec d i) as (_ & Hneg & Hout).
  destruct (ndarray_getitem_spec d (i + n)) as (Hpos & _ & _).
  fold n in Hneg, Hout, Hpos.
  split.
  - intros Hi. rewrite (Hneg Hi), (Hpos ltac:(lia)). split; reflexivity.
  - exact Hout.
Qed.

Lemma TRefArray_getitem_bounds_witness :
  let a := self (snd (Model_TRefArray.read_members (wire_bytes example_wire)
                        (mk_World fresh_TRefArray 0 plain_context))) in
  Model_TRefArray.__getitem__ a (-1) = Ok 100000 /\
  Model_TRefArray.__getitem__ a 3 = Raise IndexError.
Proof.
  intros a.
  destruct (TRefArray_getitem_bounds (wire_bytes example_wire)
              (mk_World fresh_TRefArray 0 plain_context)
              (snd (Model_TRefArray.read_members (wire_bytes example_wire)
                      (mk_World fresh_TRefArray 0 plain_context))) (-1) eq_refl)
    as (refs & Hr & Hneg & _).
  destruct (TRefArray_getitem_bounds (wire_bytes example_wire)
              (mk_World fresh_TRefArray 0 plain_context)
              (snd (Model_TRefArray.read_members (wire_bytes example_wire)
                      (mk_World fresh_TRefArray 0 plain_context))) 3 eq_refl)
    as (refs' & Hr' & _ & Hout).
  injection Hr as <-. injection Hr' as <-.
  split.
  - exact (proj1 (Hneg ltac:(cbn; lia))).
  - exact (Hout ltac:(cbn; lia)).
Defined.

Lemma iter_from_suffix (d : list Z) :
  forall (suf pre : list Z) (fuel : nat),
    d = pre ++ suf ->
    (List.length suf < fuel)%nat ->
    Sequence.iter_from fuel (ndarray_getitem d) (Z.of_nat (List.length pre)) = Some (Ok suf).
Proof.
  induction suf as [|v suf IH]; intros pre fuel Hd Hfuel.
  - destruct fuel as [|fuel]; [simpl in Hfuel; lia|]. cbn [Sequence.iter_from].
    destruct (ndarray_getitem_spec d (Z.of_nat (List.length pre))) as (_ & _ & Hout).
    rewrite Hout; [reflexivity|]. left. rewrite Hd, app_nil_r. lia.
  - destruct fuel as [|fuel]; [simpl in Hfuel; lia|]. cbn [Sequence.iter_from].
    destruct (ndarray_getitem_spec d (Z.of_nat (List.length pre))) as (Hin & _ & _).
    rewrite Hin.
    2:{ rewrite Hd, length_app. simpl. lia. }
    rewrite Nat2Z.id.
    replace (nth (List.length pre) d 0) with v.
    2:{ rewrite Hd, app_nth2, Nat.sub_diag; [reflexivity | lia]. }
    replace (Z.of_nat (List.length pre) + 1) with (Z.of_nat (List.length (pre ++ [v]))).
    2:{ rewrite length_app. simpl. lia. }
    rewrite (IH (pre ++ [v]) fuel).
    + reflexivity.
    + rewrite Hd, <- app_assoc. reflexivity.
    + simpl in Hfuel. lia.
Qed.

Lemma items_at_indices (d : list Z) (indices : list nat) :
  Forall (fun k => (k < List.length d)%nat) indices ->
  Sequence.items_at (ndarray_getitem d) (map Z.of_nat indices)
  = Ok (map (fun k => nth k d 0) indices).
Proof.
  induction 1 as [|k ks Hk _ IH]; [reflexivity|].
  cbn [map Sequence.items_at].
  destruct (ndarray_getitem_spec d (Z.of_nat k)) as (Hin & _ & _).
  rewrite Hin by lia. rewrite IH, Nat2Z.id. reflexivity.
Qed.

Lemma nth_seq_all (d : list Z) :
  map (fun k => nth k d 0) (seq 0 (List.length d)) = d.
Proof.
  apply nth_ext with (d := 0) (d' := 0).
  - now rewrite length_map, length_seq.
  - intros k Hk. rewrite length_map, length_seq in Hk.
    rewrite (nth_indep _ 0 (nth 0 d 0)) by (now rewrite length_map, length_seq).
    rewrite (map_nth (fun k => nth k d 0)), seq_nth by exact Hk. reflexivity.
Qed.

(** X10.  A decoded [TRefArray] iterates as its references: the loop of
    the sequence protocol, which asks for index 0, 1, ... until IndexError,
    ends after [len] items and yields the references in order, and the
    reversed iteration yields them in reverse order. *)
Theorem TRefArray_iterates_as_refs
    (chunk : Chunk.t) (w w' : World Model_TRefArray.t) (fuel : nat) :
  Model_TRefArray.read_members chunk w = (Ok tt, w') ->
  exists refs,
    Model_TRefArray.refs (self w') = Ok refs /\
    ((List.length refs < fuel)%nat -> Sequence.__iter__ fuel (self w') = Some (Ok refs)) /\
    Sequence.__reversed__ (self w') = Ok (rev refs).
Proof.
  intros H.
  destruct (TRefArray_read_members_sets_data chunk w w' H) as (d & Hd).
  exists d.
  unfold Model_TRefArray.refs, Sequence.__iter__, Sequence.__reversed__,
    Model_TRefArray.__len__, Model_TRefArray.__getitem__, Model_TRefArray.attr.
  rewrite Hd. split; [reflexivity|]. split.
  - intros Hfuel. apply (iter_from_suffix d d [] fuel); [reflexivity | exact Hfuel].
  - rewrite Nat2Z.id, <- map_rev.
    rewrite items_at_indices.
    + rewrite map_rev, nth_seq_all. reflexivity.
    + apply Forall_forall. intros k Hk. apply in_rev, in_seq in Hk. lia.
Qed.

Lemma TRefArray_iterates_as_refs_witness :
  let a := self (snd (Model_TRefArray.read_members (wire_bytes example_wire)
                        (mk_World fresh_TRefArray 0 plain_context))) in
  Sequence.__iter__ 4 a = Some (Ok [5; -2; 100000]).
Proof.
  intros a.
  destruct (TRefArray_iterates_as_refs (wire_bytes example_wire)
              (mk_World fresh_TRefArray 0 plain_context)
              (snd (Model_TRefArray.read_members (wire_bytes example_wire)
                      (mk_World fresh_TRefArray 0 plain_context))) 4 eq_refl)
    as (refs & Hr & Hiter & _).
  injection Hr as <-.
  exact (Hiter ltac:(cbn; lia)).
Defined.

(** ** The form builders at missing keys and in sequence *)

(** X11.  The form of [TRef] hangs on one entry of the context: it is built
    exactly when ["tobject_header"] is there, a context without it raises
    [KeyError] of that key; no other entry is read, so contexts that agree
    on the flag give the same outcome; and the context is left as it was,
    whether the build returns or raises. *)
Theorem TRef_awkward_form_needs_header_flag (c c2 : Context) :
  let out := Model_TRef.awkward_form c in
  snd out = c /\
  (is_ok (fst out) = true <-> tobject_header c <> None) /\
  (tobject_header c = None -> fst out = Raise (KeyError "tobject_header")) /\
  (tobject_header c2 = tobject_header c ->
     fst (Model_TRef.awkward_form c2) = fst out).
Proof.
  destruct c as [f i p t]. destruct c2 as [f2 i2 p2 t2]. cbn [tobject_header].
  destruct t as [[|]|]; cbn.
  - split; [reflexivity|]. split; [split; [discriminate | reflexivity]|].
    split; [discriminate|]. now intros ->.
  - split; [reflexivity|]. split; [split; [discriminate | reflexivity]|].
    split; [discriminate|]. now intros ->.
  - split; [reflexivity|]. split; [split; [discriminate | intros H; now elim H]|].
    split; [reflexivity|]. now intros ->.
Qed.

Lemma TRef_awkward_form_needs_header_flag_witness :
  fst (Model_TRef.awkward_form (mk_Context None (Some "i64") None None))
  = Raise (KeyError "tobject_header").
Proof.
  destruct (TRef_awkward_form_needs_header_flag
              (mk_Context None (Some "i64") None None) plain_context)
    as (_ & _ & H & _).
  exact (H eq_refl).
Defined.

(** X12.  In native mode, without a ["forth"] key, the form of [TRefArray]
    is built exactly when ["index_format"] is there, and a context without
    it raises [KeyError] of that key; the form carries no node key, the
    previous key and the header flag are not read, and the context is left
    as it was, whether the build returns or raises. *)
Theorem TRefArray_awkward_form_native_frame (c c2 : Context) :
  forth c = None ->
  let out := Model_TRefArray.awkward_form c in
  snd out = c /\
  (is_ok (fst out) = true <-> index_format c <> None) /\
  (index_format c = None -> fst out = Raise (KeyError "index_format")) /\
  (forall f, fst out = Ok f -> form_keys f = []) /\
  (forth c2 = None -> index_format c2 = index_format c ->
     fst (Model_TRefArray.awkward_form c2) = fst out).
Proof.
  destruct c as [f i p t]. destruct c2 as [f2 i2 p2 t2].
  cbn [forth index_format]. intros ->.
  destruct i as [off|]; cbn.
  - split; [reflexivity|]. split; [split; [discriminate | reflexivity]|].
    split; [discriminate|]. split; [now intros ? [= <-]|]. now intros -> ->.
  - split; [reflexivity|]. split; [split; [discriminate | intros H; now elim H]|].
    split; [reflexivity|]. split; [discriminate|]. now intros -> ->.
Qed.

Lemma TRefArray_awkward_form_native_frame_witness :
  fst (Model_TRefArray.awkward_form (mk_Context None None None (Some true)))
  = Raise (KeyError "index_format") /\
  snd (Model_TRefArray.awkward_form plain_context) = plain_context.
Proof.
  destruct (TRefArray_awkward_form_native_frame
              (mk_Context None None None (Some true)) plain_context eq_refl)
    as (_ & _ & H & _).
  destruct (TRefArray_awkward_form_native_frame plain_context plain_context eq_refl)
    as (H' & _).
  split; [exact (H eq_refl) | exact H'].
Defined.

Lemma forth_code_after_clear (cls : model_class) (code : list (model_class * option string)) :
  dict_get model_class_eqb cls (dict_set model_class_eqb cls None code) = Some None.
Proof.
  induction code as [|[k v] rest IH]; cbn [dict_set dict_get].
  - destruct cls; reflexivity.
  - destruct (model_class_eqb cls k) eqn:E; cbn [dict_get].
    + destruct cls; reflexivity.
    + rewrite E. exact IH.
Qed.

(** X13.  In bytecode mode the index format is read after the generator
    has been set up: a context with a generator but without
    ["index_format"] raises [KeyError] of that key with the class's code
    entry reset, the six keys behind the counter taken and the pre hook
    registered, but no post hook; the previous key is as it was. *)
Theorem TRefArray_awkward_form_forth_without_index_format
    (c : Context) (g : ForthGenerator.t) :
  forth c = Some g ->
  index_format c = None ->
  let out := Model_TRefArray.awkward_form c in
  let base := ForthGenerator.get_last_key g in
  fst out = Raise (KeyError "index_format") /\
  prev_key (snd out) = prev_key c /\
  exists g',
    forth (snd out) = Some g' /\
    ForthGenerator.get_last_key g' = base + 6 /\
    ForthGenerator.forth_keys g'
      = ForthGenerator.forth_keys g ++ [(Class_TRefArray, (base + 1, base + 6))] /\
    ForthGenerator.sequence g'
      = ForthGenerator.sequence g ++ [ForthGenerator.pre Class_TRefArray] /\
    dict_get model_class_eqb Class_TRefArray (ForthGenerator.forth_code g') = Some None.
Proof.
  intros Hg Hoff. destruct c as [f i p t]. cbn [forth index_format] in Hg, Hoff. subst f i.
  cbn. split; [reflexivity|]. split; [reflexivity|].
  eexists. split; [reflexivity|]. do 3 (split; [reflexivity|]).
  apply forth_code_after_clear.
Qed.

Lemma TRefArray_awkward_form_forth_without_index_format_witness :
  fst (Model_TRefArray.awkward_form formatless_context) = Raise (KeyError "index_format").
Proof.
  exact (proj1 (TRefArray_awkward_form_forth_without_index_format formatless_context
                  (ForthGenerator.mk 10 [] [] []) eq_refl eq_refl)).
Defined.

Lemma build_hooks_app (n : nat) :
  [ForthGenerator.pre Class_TRefArray; ForthGenerator.post Class_TRefArray] ++ build_hooks n
  = build_hooks (S n).
Proof. reflexivity. Qed.

(** The state after one bytecode-mode build is again one a build can start
    from. *)
Lemma awkward_forms_from (n : nat) :
  forall (c : Context) (g : ForthGenerator.t) (off : string),
    forth c = Some g ->
    index_format c = Some off ->
    let base := ForthGenerator.get_last_key g in
    exists forms c' g',
      awkward_forms n c = (Ok forms, c') /\
      forth c' = Some g' /\
      index_format c' = Some off /\
      tobject_header c' = tobject_header c /\
      map form_key_of forms
        = map (fun k => Some (node_key (base + 6 * Z.of_nat k + 1))) (seq 0 n) /\
      map form_keys forms
        = map (fun k => map (fun j => node_key (base + 6 * Z.of_nat k + j))
                            [1; 2; 3; 4; 5; 6]) (seq 0 n) /\
      ForthGenerator.get_last_key g' = base + 6 * Z.of_nat n /\
      ForthGenerator.sequence g' = ForthGenerator.sequence g ++ build_hooks n.
Proof.
  induction n as [|n IH]; intros c g off Hg Hoff base.
  - exists [], c, g. cbn. rewrite app_nil_r.
    repeat split; auto. subst base. lia.
  - pose proof (TRefArray_awkward_form_forth_run c g off Hg Hoff) as H1.
    cbv zeta in H1. fold base in H1.
    set (c1 := mk_Context (Some (built_TRefArray base g)) (Some off) None (tobject_header c))
      in *.
    destruct (IH c1 (built_TRefArray base g) off eq_refl eq_refl)
      as (forms & c' & g' & Hrun & Hg' & Hoff' & Hth & Hkeys & Hall & Hlast & Hseq).
    change (ForthGenerator.get_last_key (built_TRefArray base g)) with (base + 6)
      in Hkeys, Hall, Hlast.
    eexists _, c', g'.
    split.
    { cbn [awkward_forms]. rewrite bind_run, H1. rewrite bind_run, Hrun. reflexivity. }
    split; [exact Hg'|]. split; [exact Hoff'|]. split; [exact Hth|].
    split; [|split; [|split]].
    + cbn [map seq form_key_of]. f_equal.
      * do 2 f_equal. lia.
      * rewrite Hkeys, <- seq_shift, map_map. apply map_ext. intros k.
        do 2 f_equal. lia.
    + cbn [map seq]. f_equal.
      * cbn [form_keys flat_map app map]. repeat (f_equal; try lia).
      * rewrite Hall, <- seq_shift, map_map. apply map_ext. intros k.
        cbn [map]. repeat (f_equal; try lia).
    + rewrite Hlast. lia.
    + rewrite Hseq. cbn [built_TRefArray ForthGenerator.register_post
                          ForthGenerator.register_pre ForthGenerator.add_hook
                          ForthGenerator.init_keys ForthGenerator.clear_code
                          ForthGenerator.sequence].
      rewrite <- !app_assoc. reflexivity.
Qed.

(** X14.  Any number of [TRefArray] forms built one after the other in one
    bytecode-mode context all succeed and share no node key: the [k]-th
    build (from 0) takes the keys base+6k+1 to base+6k+6, the counter ends
    at base+6n, and the generator has received a pre and a post hook per
    build, in that order. *)
Theorem TRefArray_awkward_forms_in_sequence
    (n : nat) (c : Context) (g : ForthGenerator.t) (off : string) :
  forth c = Some g ->
  index_format c = Some off ->
  let base := ForthGenerator.get_last_key g in
  exists forms c' g',
    awkward_forms n c = (Ok forms, c') /\
    forth c' = Some g' /\
    List.length forms = n /\
    map form_keys forms
      = map (fun k => map (fun j => node_key (base + 6 * Z.of_nat k + j))
                          [1; 2; 3; 4; 5; 6]) (seq 0 n) /\
    (forall k1 k2 j1 j2,
       (k1 < n)%nat -> (k2 < n)%nat -> 1 <= j1 <= 6 -> 1 <= j2 <= 6 ->
       node_key (base + 6 * Z.of_nat k1 + j1) = node_key (base + 6 * Z.of_nat k2 + j2) ->
       k1 = k2 /\ j1 = j2) /\
    ForthGenerator.get_last_key g' = base + 6 * Z.of_nat n /\
    ForthGenerator.sequence g' = ForthGenerator.sequence g ++ build_hooks n.
Proof.
  intros Hg Hoff base.
  destruct (awkward_forms_from n c g off Hg Hoff)
    as (forms & c' & g' & Hrun & Hg' & _ & _ & Hkeys & Hall & Hlast & Hseq).
  exists forms, c', g'.
  split; [exact Hrun|]. split; [exact Hg'|].
  split.
  { apply (f_equal (@List.length _)) in Hkeys.
    now rewrite !length_map, length_seq in Hkeys. }
  split; [exact Hall|].
  split.
  { intros k1 k2 j1 j2 _ _ Hj1 Hj2 Heq. apply node_key_inj in Heq. lia. }
  split; [exact Hlast | exact Hseq].
Qed.

Lemma TRefArray_awkward_forms_in_sequence_witness :
  exists forms c',
    awkward_forms 3 forth_context = (Ok forms, c') /\
    map form_key_of forms = [Some "node11"; Some "node17"; Some "node23"].
Proof.
  destruct (TRefArray_awkward_forms_in_sequence 3 forth_context
              (ForthGenerator.mk 10 [] [] []) "i64" eq_refl eq_refl)
    as (forms & c' & g' & Hrun & _).
  exists forms, c'. split; [exact Hrun|].
  cbv in Hrun. injection Hrun as <- _. reflexivity.
Defined.
